(** * Pygraphene tick generation: locators and labelers (ticker.py)

    A shallow embedding of [ticker.py] (Python 2) and the properties of its
    locators and labelers.

    Number model.  A Python [int] is a [Z].  The locators are embedded
    over exact numbers first: a [float] is a rational [Q], kept in lowest
    terms by [Qred] after every operation.  That is the arithmetic the code
    is written for, and the statements made on it are those that do not
    depend on how a double rounds: which values a setter stores, what a
    call raises, how many ticks a list has and which positions they come
    from.  Where the rounding decides the result (whether the loops of a
    SpacedLocator end, to which index a half is rounded, the floor of a
    quotient of two logarithms) the code is read on IEEE 754 doubles, in
    the module [Binary64].  A [bool] is an [int] to [isinstance], as in
    Python, and is read by its value 0 or 1. *)

From Stdlib Require Import ZArith QArith Qround Qpower Lqa Lia List String Ascii Bool.
From Stdlib Require Import Floats.
From stdpp Require Import base gmap strings.
Import ListNotations.
Open Scope Z_scope.

(** ** Python values *)

#[warnings="-register-all"]
Inductive pyval : Type :=
| PyNone
| PyBool (b : bool)
| PyInt (z : Z)
| PyFloat (q : Q)
| PyStr (s : string)
| PyList (l : list pyval)
| PyTuple (l : list pyval).

(** A number: what [isinstance(x, int) or isinstance(x, float)] lets through. *)
Inductive num : Type :=
| NInt (z : Z)
| NFloat (q : Q).

Inductive exn : Type :=
| ZeroDivisionError
| TypeError
| ValueError
| IndexError
| AttributeError
| OverflowError.

Inductive result (A : Type) : Type :=
| Ok (a : A)
| Raise (e : exn).
Arguments Ok {A} a.
Arguments Raise {A} e.

#[export] Instance result_ret : MRet result := fun A a => Ok a.
#[export] Instance result_bind : MBind result := fun A B f r =>
  match r with
  | Ok a => f a
  | Raise e => Raise e
  end.
#[export] Instance result_fmap : FMap result := fun A B f r =>
  match r with
  | Ok a => Ok (f a)
  | Raise e => Raise e
  end.

(** [isinstance(v, int)]: the value of an [int] or a [bool]. *)
Definition as_int (v : pyval) : option Z :=
  match v with
  | PyInt z => Some z
  | PyBool b => Some (Z.b2z b)
  | _ => None
  end.

(** [isinstance(v, int) or isinstance(v, float)]. *)
Definition as_num (v : pyval) : option num :=
  match v with
  | PyInt z => Some (NInt z)
  | PyBool b => Some (NInt (Z.b2z b))
  | PyFloat q => Some (NFloat q)
  | _ => None
  end.

(** [isinstance(v, list) or isinstance(v, tuple)]: the items. *)
Definition as_seq (v : pyval) : option (list pyval) :=
  match v with
  | PyList l => Some l
  | PyTuple l => Some l
  | _ => None
  end.

Definition of_num (n : num) : pyval :=
  match n with
  | NInt z => PyInt z
  | NFloat q => PyFloat q
  end.

(** ** Arithmetic and comparison of numbers *)

Definition Qof (n : num) : Q :=
  match n with
  | NInt z => inject_Z z
  | NFloat q => q
  end.

(** [float(x)] *)
Definition float_ (n : num) : Q := Qred (Qof n).

Definition num_add (a b : num) : num :=
  match a, b with
  | NInt x, NInt y => NInt (x + y)
  | _, _ => NFloat (Qred (Qof a + Qof b))
  end.

Definition num_sub (a b : num) : num :=
  match a, b with
  | NInt x, NInt y => NInt (x - y)
  | _, _ => NFloat (Qred (Qof a - Qof b))
  end.

Definition num_mul (a b : num) : num :=
  match a, b with
  | NInt x, NInt y => NInt (x * y)
  | _, _ => NFloat (Qred (Qof a * Qof b))
  end.

Definition Qltb (x y : Q) : bool :=
  match (x ?= y)%Q with
  | Lt => true
  | _ => false
  end.

(** [a < b], [a > b] and [a == b] on numbers of either class. *)
Definition num_ltb (a b : num) : bool := Qltb (Qof a) (Qof b).
Definition num_gtb (a b : num) : bool := Qltb (Qof b) (Qof a).

(** Float subtraction and true division of two floats. *)
Definition float_sub (a b : Q) : Q := Qred (a - b).

Definition float_div (a b : Q) : result Q :=
  if Qeq_bool b 0 then Raise ZeroDivisionError else Ok (Qred (a / b)).

(** ** NullLocator *)

Module NullLocator.

Definition locations (start end_ : num) (axisType : string) : list num := [].

End NullLocator.

(** ** LinearLocator *)

Module LinearLocator.

Record t : Type := { _num : Z }.

Definition setNum (num : pyval) (self : t) : t :=
  match as_int num with
  | Some n => {| _num := n |}
  | None => self
  end.

Definition __init__ (num : pyval) : t := setNum num {| _num := 5 |}.

(** [for i in range(n): locs.append(start); start += delta]
    The sums are exact here; Python rounds each of them. *)
Fixpoint loop (n : nat) (delta : Q) (start : num) (locs : list num) : list num :=
  match n with
  | O => locs
  | S n' => loop n' delta (num_add start (NFloat delta)) (locs ++ [start])
  end.

Definition locations (self : t) (start end_ : num) (axisType : string)
  : result (list num) :=
  let num := _num self in
  let num := if String.eqb axisType "minor" then num + 2 else num in
  delta ← float_div (float_sub (float_ end_) (float_ start)) (float_ (NInt (num - 1)));
  let locs := loop (Z.to_nat (num - 1)) delta start [] in
  Ok (locs ++ [end_]).

(** [num = kwargs.pop('num', None); self.setNum(num)] *)
Definition setValues (kwargs : gmap string pyval) (self : t) : t :=
  let num := default PyNone (kwargs !! "num"%string) in
  setNum num self.

End LinearLocator.

(** ** FixedLocator *)

(** Python 2 [round]: to the nearest integer, halves away from zero. *)
Definition py_round (x : Q) : Q :=
  if Qltb x 0 then inject_Z (- Qfloor (- x + (1 # 2)))
  else inject_Z (Qfloor (x + (1 # 2))).

(** [int(x)] of a float: towards zero. *)
Definition py_int (x : Q) : Z :=
  if Qltb x 0 then Qceiling x else Qfloor x.

(** [l[i]]: a negative index counts from the end. *)
Definition py_index {A : Type} (l : list A) (i : Z) : result A :=
  let j := if i <? 0 then i + Z.of_nat (length l) else i in
  if j <? 0 then Raise IndexError
  else match l !! Z.to_nat j with
       | Some x => Ok x
       | None => Raise IndexError
       end.

Module FixedLocator.

(** The attribute [_nTicks]: the constructor assigns it only through
    [setNTicks], so it can be missing. *)
Inductive nTicks : Type :=
| Unassigned
| IsNone
| IsInt (k : Z).

(** [_locations] holds the items of the list or tuple passed in. *)
Record t : Type := { _locations : list pyval; _nTicks : nTicks }.

Definition setLocations (locations : pyval) (self : t) : t :=
  match as_seq locations with
  | Some l => {| _locations := l; _nTicks := _nTicks self |}
  | None => self
  end.

Definition setNTicks (nTicks : pyval) (self : t) : t :=
  match nTicks with
  | PyNone => {| _locations := _locations self; _nTicks := IsNone |}
  | _ =>
      match as_int nTicks with
      | Some k =>
          if k <? 2 then {| _locations := _locations self; _nTicks := IsInt 2 |}
          else {| _locations := _locations self; _nTicks := IsInt k |}
      | None => self
      end
  end.

Definition __init__ (locations nTicks : pyval) : t :=
  setNTicks nTicks
    (setLocations locations {| _locations := []; _nTicks := Unassigned |}).

(** [for i in range(n): locs.append(self._locations[int(round(i * d))])]
    The product is exact here; the index Python takes, from the double
    product, is [Binary64.subsample_index] below. *)
Fixpoint loop (range : list Z) (d : Q) (locations locs : list pyval)
  : result (list pyval) :=
  match range with
  | [] => Ok locs
  | i :: range' =>
      x ← py_index locations (py_int (py_round (Qred (inject_Z i * d))));
      loop range' d locations (locs ++ [x])
  end.

(** The state after the call comes with the result: the subsampling branch
    assigns [self._nTicks]. *)
Definition locations (self : t) (start end_ : num) (axisType : string)
  : t * result (list pyval) :=
  let len := Z.of_nat (length (_locations self)) in
  match _nTicks self with
  | Unassigned => (self, Raise AttributeError)
  | IsNone => (self, Ok (_locations self))
  | IsInt k =>
      if len <=? k then (self, Ok (_locations self))
      else
        let '(self, k) :=
          if k <? 2
          then ({| _locations := _locations self; _nTicks := IsInt 2 |}, 2)
          else (self, k) in
        let n := k - 1 in
        (self,
         subsamplingDistance ← float_div (float_ (NInt (len - 1))) (float_ (NInt n));
         locs ← loop (seqZ 0 n) subsamplingDistance (_locations self) [];
         x ← py_index (_locations self) (-1);
         Ok (locs ++ [x]))
  end.

Definition setValues (kwargs : gmap string pyval) (self : t) : t :=
  let self :=
    match kwargs !! "locations"%string with
    | Some v => setLocations v self
    | None => self
    end in
  match kwargs !! "nTicks"%string with
  | Some v => setNTicks v self
  | None => self
  end.

End FixedLocator.

(** ** SpacedLocator *)

Module SpacedLocator.

Record t : Type := { _base : num; _anchor : option num }.

Definition setBase (base : pyval) (self : t) : t :=
  match as_num base with
  | Some b =>
      if num_gtb b (NInt 0) then {| _base := b; _anchor := _anchor self |}
      else self
  | None => self
  end.

Definition setAnchor (anchor : pyval) (self : t) : t :=
  match anchor with
  | PyNone => {| _base := _base self; _anchor := None |}
  | _ =>
      match as_num anchor with
      | Some a => {| _base := _base self; _anchor := Some a |}
      | None => self
      end
  end.

Definition __init__ (base anchor : pyval) : t :=
  setAnchor anchor (setBase base {| _base := NFloat 1; _anchor := None |}).

(** [while loc < end: locs.append(loc); loc += base] and the
    [locs.append(loc)] after it.  The loop is run on fuel: [None] is a
    loop still running when the fuel is spent.  The sums are exact here;
    with the rounded sums of Python the loop is
    [Binary64.SpacedLocator.walk_up] below. *)
Fixpoint walk_up (fuel : nat) (base end_ loc : num) (locs : list num)
  : option (list num) :=
  match fuel with
  | O => None
  | S fuel' =>
      if num_ltb loc end_
      then walk_up fuel' base end_ (num_add loc base) (locs ++ [loc])
      else Some (locs ++ [loc])
  end.

(** [while loc > start: locs.insert(0, loc); loc -= base] and the
    [locs.insert(0, loc)] after it. *)
Fixpoint walk_down (fuel : nat) (base start loc : num) (locs : list num)
  : option (list num) :=
  match fuel with
  | O => None
  | S fuel' =>
      if num_gtb loc start
      then walk_down fuel' base start (num_sub loc base) (loc :: locs)
      else Some (loc :: locs)
  end.

Definition locations (fuel : nat) (self : t) (start end_ : num) (axisType : string)
  : option (list num) :=
  let base := _base self in
  match _anchor self with
  | None => walk_up fuel base end_ start []
  | Some anchor =>
      locs ← walk_down fuel base start anchor [];
      walk_up fuel base end_ (num_add anchor base) locs
  end.

(** [base = kwargs.pop('base', None); anchor = kwargs.pop('anchor', '')] *)
Definition setValues (kwargs : gmap string pyval) (self : t) : t :=
  let base := default PyNone (kwargs !! "base"%string) in
  let anchor := default (PyStr "") (kwargs !! "anchor"%string) in
  setAnchor anchor (setBase base self).

End SpacedLocator.

(** ** LogLocator *)

(** The logarithm of a rational is not a rational: over the exact numbers
    [math.log] is modelled through the two uses the code makes of it, the
    floor and the ceiling of [log_b x], found by comparing [x] with the
    powers of [b].  Python floors the quotient of two doubles, which can
    lie on the other side of an integer than the logarithm does:
    [Binary64.LogLocator] below. *)

(** Enough steps for the powers of [b > 1] to pass [x]. *)
Definition log_fuel (b x : Q) : nat := S (Z.to_nat (Qceiling (x / (b - 1)))).

(** The largest [k >= 0] with [b ^ k <= x], for [1 < b] and [1 <= x];
    [p] is [b ^ (k + 1)]. *)
Fixpoint floor_log_loop (fuel : nat) (b x p : Q) (k : Z) : Z :=
  match fuel with
  | O => k
  | S fuel' =>
      if Qle_bool p x then floor_log_loop fuel' b x (Qred (p * b)) (k + 1) else k
  end.

(** The smallest [k >= 0] with [x <= b ^ k], for [1 < b] and [1 <= x];
    [p] is [b ^ k]. *)
Fixpoint ceil_log_loop (fuel : nat) (b x p : Q) (k : Z) : Z :=
  match fuel with
  | O => k
  | S fuel' =>
      if Qle_bool x p then k else ceil_log_loop fuel' b x (Qred (p * b)) (k + 1)
  end.

Definition floor_log_ge1 (b x : Q) : Z := floor_log_loop (log_fuel b x) b x b 0.
Definition ceil_log_ge1 (b x : Q) : Z := ceil_log_loop (log_fuel b x) b x 1 0.

(** [floor (log_b x)] and [ceil (log_b x)] for [1 < b] and [0 < x]. *)
Definition floor_log_gt1 (b x : Q) : Z :=
  if Qle_bool 1 x then floor_log_ge1 b x else - ceil_log_ge1 b (/ x).
Definition ceil_log_gt1 (b x : Q) : Z :=
  if Qle_bool 1 x then ceil_log_ge1 b x else - floor_log_ge1 b (/ x).

(** For [0 < b < 1], [log_b x = - log_(1/b) x]. *)
Definition floor_log (b x : Q) : Z :=
  if Qltb 1 b then floor_log_gt1 b x else - ceil_log_gt1 (/ b) x.
Definition ceil_log (b x : Q) : Z :=
  if Qltb 1 b then ceil_log_gt1 b x else - floor_log_gt1 (/ b) x.

(** What [math.log(x, base)] raises: a [ValueError] outside the domain of
    the logarithm, of [x] first, and a [ZeroDivisionError] when
    [log(base)] is zero. *)
Definition math_log_defined (x base : num) : result () :=
  if Qle_bool (Qof x) 0 then Raise ValueError
  else if Qle_bool (Qof base) 0 then Raise ValueError
  else if Qeq_bool (Qof base) 1 then Raise ZeroDivisionError
  else Ok ().

(** [int(math.floor(math.log(x, base)))] and
    [int(math.ceil(math.log(x, base)))] *)
Definition math_floor_log (x base : num) : result Z :=
  _ ← math_log_defined x base; Ok (floor_log (Qof base) (Qof x)).
Definition math_ceil_log (x base : num) : result Z :=
  _ ← math_log_defined x base; Ok (ceil_log (Qof base) (Qof x)).

(** [pow(base, exponent)] for an integer exponent: an [int] to a
    non-negative power is an [int], every other power is a [float]. *)
Definition py_pow (base : num) (exponent : Z) : result num :=
  match base with
  | NInt b =>
      if 0 <=? exponent then Ok (NInt (b ^ exponent))
      else if b =? 0 then Raise ZeroDivisionError
      else Ok (NFloat (Qred (inject_Z b ^ exponent)))
  | NFloat q =>
      if (exponent <? 0) && Qeq_bool q 0 then Raise ZeroDivisionError
      else Ok (NFloat (Qred (q ^ exponent)))
  end.

Fixpoint string_repeat (s : string) (n : nat) : string :=
  match n with
  | O => EmptyString
  | S n' => String.append s (string_repeat s n')
  end.

(** [x * p] with a number [p] on the right: a product of numbers, or the
    repetition of a string, list or tuple by an [int]. *)
Definition py_mul (x : pyval) (p : num) : result pyval :=
  match as_num x with
  | Some n => Ok (of_num (num_mul n p))
  | None =>
      match x, p with
      | PyStr s, NInt k => Ok (PyStr (string_repeat s (Z.to_nat k)))
      | PyList l, NInt k => Ok (PyList (List.concat (replicate (Z.to_nat k) l)))
      | PyTuple l, NInt k => Ok (PyTuple (List.concat (replicate (Z.to_nat k) l)))
      | _, _ => Raise TypeError
      end
  end.

Module LogLocator.

Record t : Type := { _base : num; _subdivisions : list pyval }.

Definition setBase (base : pyval) (self : t) : t :=
  match as_num base with
  | Some b => {| _base := b; _subdivisions := _subdivisions self |}
  | None => self
  end.

Definition setSubdivisions (subdivisions : pyval) (self : t) : t :=
  match as_seq subdivisions with
  | Some l => {| _base := _base self; _subdivisions := l |}
  | None => self
  end.

Definition __init__ (base subdivisions : pyval) : t :=
  setSubdivisions subdivisions
    (setBase base {| _base := NInt 10; _subdivisions := [PyInt 1] |}).

(** [try: ... except ValueError: exponent = 0] *)
Definition except_ValueError (r : result Z) (fallback : Z) : result Z :=
  match r with
  | Raise ValueError => Ok fallback
  | _ => r
  end.

(** [[x * pow(self._base, exponent) for x in self._subdivisions]] *)
Definition decade (base : num) (subdivisions : list pyval) (exponent : Z)
  : result (list pyval) :=
  mapM (fun x => p ← py_pow base exponent; py_mul x p) subdivisions.

(** [while exponent <= lastExponent: locs.extend(...); exponent += 1],
    over the exponents the loop visits. *)
Fixpoint loop (exponents : list Z) (base : num) (subdivisions locs : list pyval)
  : result (list pyval) :=
  match exponents with
  | [] => Ok locs
  | exponent :: exponents' =>
      xs ← decade base subdivisions exponent;
      loop exponents' base subdivisions (locs ++ xs)
  end.

Definition locations (self : t) (start end_ : num) (axisType : string)
  : result (list pyval) :=
  exponent ← except_ValueError (math_floor_log start (_base self)) 0;
  lastExponent ← except_ValueError (math_ceil_log end_ (_base self)) 0;
  loop (seqZ exponent (lastExponent - exponent + 1))
       (_base self) (_subdivisions self) [].

Definition setValues (kwargs : gmap string pyval) (self : t) : t :=
  let base := default PyNone (kwargs !! "base"%string) in
  let subdivisions := default PyNone (kwargs !! "subdivisions"%string) in
  setSubdivisions subdivisions (setBase base self).

End LogLocator.

(** ** Labelers *)

(** The two built-ins the labelers call on a position: [str(v)] and
    [fmt % v].  [str] of a string is the string; the text of any other
    value, and the formatting operator, are taken as given.  [fmt % v]
    can raise. *)
Class PyStrings : Type := {
  str_other : pyval -> string;
  format : string -> pyval -> result string
}.

Definition str `{PyStrings} (v : pyval) : string :=
  match v with
  | PyStr s => s
  | _ => str_other v
  end.

Module NullLabeler.

Definition labels (locations : list pyval) : list string :=
  replicate (length locations) EmptyString.

End NullLabeler.

Module StringLabeler.

Record t : Type := { _labels : list pyval }.

Definition setLabels (labels : pyval) (self : t) : t :=
  match as_seq labels with
  | Some l => {| _labels := l |}
  | None => self
  end.

Definition __init__ (labels : pyval) : t := setLabels labels {| _labels := [] |}.

Definition labels `{PyStrings} (self : t) (locations : list pyval) : list string :=
  let locsLength := length locations in
  let labelsLength := length (_labels self) in
  let strings : list pyval := [] in
  let strings :=
    if (locsLength =? labelsLength)%nat then strings ++ _labels self
    else if (labelsLength <? locsLength)%nat then
      (strings ++ _labels self)
        ++ replicate (locsLength - labelsLength)%nat (PyStr EmptyString)
    else if (locsLength <? labelsLength)%nat then
      strings ++ take locsLength (_labels self)
    else strings in
  map str strings.

End StringLabeler.

Module FormatLabeler.

Record t : Type := { _fmt : option string }.

Definition setFormatter (fmt : pyval) (self : t) : t :=
  match fmt with
  | PyStr s => {| _fmt := Some s |}
  | PyNone => {| _fmt := None |}
  | _ => self
  end.

Definition __init__ (fmt : pyval) : t := setFormatter fmt {| _fmt := None |}.

Definition labels `{PyStrings} (self : t) (locations : list pyval)
  : result (list string) :=
  let strings := map str locations in
  match _fmt self with
  | Some fmt => mapM (format fmt) locations
  | None => Ok strings
  end.

End FormatLabeler.

(** ** The two families *)

Inductive Labeler : Type :=
| ANullLabeler
| AStringLabeler (self : StringLabeler.t)
| AFormatLabeler (self : FormatLabeler.t).

Definition labels `{PyStrings} (self : Labeler) (locations : list pyval)
  : result (list string) :=
  match self with
  | ANullLabeler => Ok (NullLabeler.labels locations)
  | AStringLabeler l => Ok (StringLabeler.labels l locations)
  | AFormatLabeler l => FormatLabeler.labels l locations
  end.

Inductive Locator : Type :=
| ANullLocator
| ALinearLocator (self : LinearLocator.t)
| AFixedLocator (self : FixedLocator.t)
| ASpacedLocator (self : SpacedLocator.t)
| ALogLocator (self : LogLocator.t).

(** A call of [locations]: the locator after the call, and the list
    returned or the exception raised; [None] is a loop still running when
    the fuel is spent. *)
Definition locations (fuel : nat) (self : Locator) (start end_ : num) (axisType : string)
  : Locator * option (result (list pyval)) :=
  match self with
  | ANullLocator =>
      (self, Some (Ok (map of_num (NullLocator.locations start end_ axisType))))
  | ALinearLocator l =>
      (self, Some (map of_num <$> LinearLocator.locations l start end_ axisType))
  | AFixedLocator l =>
      let '(l', r) := FixedLocator.locations l start end_ axisType in
      (AFixedLocator l', Some r)
  | ASpacedLocator l =>
      (self, (fun locs => Ok (map of_num locs))
               <$> SpacedLocator.locations fuel l start end_ axisType)
  | ALogLocator l =>
      (self, Some (LogLocator.locations l start end_ axisType))
  end.

(** ** Numbers as Python computes them

    Where the rounding of a double decides what the code returns, or
    whether it returns, the code is read on Python's own numbers: an [int]
    is a [Z] (Python 2 promotes an [int] to [long] where it has to), a
    [float] is an IEEE 754 binary64, and an operation on an [int] and a
    [float] converts the [int] first. *)

Module Binary64.

Inductive pynum : Type :=
| PInt (z : Z)
| PFloat (f : float).

(** [float(z)]: the double nearest to [z], a tie going to the even one. *)
Definition float_of_Z (z : Z) : float :=
  SF2Prim (binary_normalize prec emax z 0 false).

(** The conversion of an operand; an [int] beyond the doubles raises. *)
Definition to_float (x : pynum) : result float :=
  match x with
  | PFloat f => Ok f
  | PInt z =>
      let f := float_of_Z z in
      if PrimFloat.is_infinity f then Raise OverflowError else Ok f
  end.

(** [x + y] and [x - y] *)
Definition py_add (x y : pynum) : result pynum :=
  match x, y with
  | PInt a, PInt b => Ok (PInt (a + b))
  | _, _ => fx ← to_float x; fy ← to_float y; Ok (PFloat (PrimFloat.add fx fy))
  end.

Definition py_sub (x y : pynum) : result pynum :=
  match x, y with
  | PInt a, PInt b => Ok (PInt (a - b))
  | _, _ => fx ← to_float x; fy ← to_float y; Ok (PFloat (PrimFloat.sub fx fy))
  end.

(** A double against an [int]: Python compares the two values exactly,
    without converting the [int].  [None]: the double is a NaN. *)
Definition compare_float_Z (f : float) (z : Z) : option comparison :=
  match Prim2SF f with
  | S754_nan => None
  | S754_infinity s => Some (if s then Lt else Gt)
  | S754_zero _ => Some (0 ?= z)
  | S754_finite s m e =>
      let v := if s then Z.neg m else Z.pos m in
      if 0 <=? e then Some (v * 2 ^ e ?= z) else Some (v ?= z * 2 ^ (- e))
  end.

(** [x < y] and [x > y] *)
Definition py_lt (x y : pynum) : bool :=
  match x, y with
  | PInt a, PInt b => a <? b
  | PFloat f, PFloat g => PrimFloat.ltb f g
  | PFloat f, PInt b =>
      match compare_float_Z f b with Some Lt => true | _ => false end
  | PInt a, PFloat g =>
      match compare_float_Z g a with Some Gt => true | _ => false end
  end.

Definition py_gt (x y : pynum) : bool := py_lt y x.


(** [int(math.floor(f))] and [int(math.ceil(f))] *)
Definition int_floor (f : float) : result Z :=
  match Prim2SF f with
  | S754_nan => Raise ValueError
  | S754_infinity _ => Raise OverflowError
  | S754_zero _ => Ok 0
  | S754_finite s m e =>
      let v := if s then Z.neg m else Z.pos m in
      Ok (if 0 <=? e then v * 2 ^ e else v / 2 ^ (- e))
  end.

Definition int_ceil (f : float) : result Z :=
  match Prim2SF f with
  | S754_nan => Raise ValueError
  | S754_infinity _ => Raise OverflowError
  | S754_zero _ => Ok 0
  | S754_finite s m e =>
      let v := if s then Z.neg m else Z.pos m in
      Ok (if 0 <=? e then v * 2 ^ e else - ((- v) / 2 ^ (- e)))
  end.

Module SpacedLocator.

Record t : Type := { _base : pynum; _anchor : option pynum }.

(** [while loc < end: locs.append(loc); loc += base] and the
    [locs.append(loc)] after it, on fuel: [None] is a loop still running
    when the fuel is spent. *)
Fixpoint walk_up (fuel : nat) (base end_ loc : pynum) (locs : list pynum)
  : option (result (list pynum)) :=
  match fuel with
  | O => None
  | S fuel' =>
      if py_lt loc end_
      then match py_add loc base with
           | Ok loc' => walk_up fuel' base end_ loc' (locs ++ [loc])
           | Raise e => Some (Raise e)
           end
      else Some (Ok (locs ++ [loc]))
  end.

(** [while loc > start: locs.insert(0, loc); loc -= base] and the
    [locs.insert(0, loc)] after it. *)
Fixpoint walk_down (fuel : nat) (base start loc : pynum) (locs : list pynum)
  : option (result (list pynum)) :=
  match fuel with
  | O => None
  | S fuel' =>
      if py_gt loc start
      then match py_sub loc base with
           | Ok loc' => walk_down fuel' base start loc' (loc :: locs)
           | Raise e => Some (Raise e)
           end
      else Some (Ok (loc :: locs))
  end.

Definition locations (fuel : nat) (self : t) (start end_ : pynum) (axisType : string)
  : option (result (list pynum)) :=
  let base := _base self in
  match _anchor self with
  | None => walk_up fuel base end_ start []
  | Some anchor =>
      match walk_down fuel base start anchor [] with
      | Some (Ok locs) =>
          match py_add anchor base with
          | Ok loc => walk_up fuel base end_ loc locs
          | Raise e => Some (Raise e)
          end
      | stopped => stopped
      end
  end.

End SpacedLocator.


(** [math.log(x, base)] divides two natural logarithms, each the double
    the C library's [log] returns; these are its values at 10, 1000 and
    10000. *)
Definition log_10 : float := 0x1.26bb1bbb55516p+1%float.
Definition log_1000 : float := 0x1.ba18a998fffap+2%float.
Definition log_10000 : float := 0x1.26bb1bbb55516p+3%float.

Definition math_log (log_x log_base : float) : result float :=
  if PrimFloat.eqb log_base 0 then Raise ZeroDivisionError
  else Ok (PrimFloat.div log_x log_base).

Module LogLocator.

(** [locations] of a LogLocator for a [start], an [end] and a base that
    have a logarithm, given the three natural logarithms as the C library
    computes them: the exponents are the floor and the ceiling of the two
    double quotients.  The powers and the products of the loop are the
    exact ones, which are Python's for an [int] base, [int] subdivisions
    and exponents from 0 on. *)
Definition locations (self : LogLocator.t) (log_start log_end log_base : float)
  : result (list pyval) :=
  exponent ← LogLocator.except_ValueError
               (x ← math_log log_start log_base; int_floor x) 0;
  lastExponent ← LogLocator.except_ValueError
                   (x ← math_log log_end log_base; int_ceil x) 0;
  LogLocator.loop (seqZ exponent (lastExponent - exponent + 1))
    (LogLocator._base self) (LogLocator._subdivisions self) [].

End LogLocator.

End Binary64.

(** ** Vocabulary of the statements *)


Definition Qnat (i : nat) : Q := inject_Z (Z.of_nat i).

(** A loop of a SpacedLocator value by value: [l] starts at [x], every
    value that passes [test] is followed by its [step], and the first
    value that fails [test] is the last of [l]. *)
Inductive walk (step : Binary64.pynum -> result Binary64.pynum)
  (test : Binary64.pynum -> bool) : Binary64.pynum -> list Binary64.pynum -> Prop :=
| walk_stop x :
    test x = false -> walk step test x [x]
| walk_on x y l :
    test x = true -> step x = Ok y -> walk step test y l ->
    walk step test x (x :: l).

(** [first, first + step, first + 2 * step, ...]: [n] integers. *)
Definition grid (first step : Z) (n : nat) : list Binary64.pynum :=
  map (fun i => Binary64.PInt (first + Z.of_nat i * step)) (seq 0 n).

(** The number of steps of [step > 0] it takes from [from] to reach [to]. *)
Definition steps (from to step : Z) : nat :=
  Z.to_nat ((to - from + step - 1) / step).

(** The index the subsampling of a FixedLocator takes for its [i]-th tick:
    [i * (len - 1) / (tickLimit - 1)] rounded to the nearest integer,
    halves upwards. *)
Definition round_index (i len tickLimit : Z) : Z :=
  Qfloor (inject_Z i * (inject_Z (len - 1) / inject_Z (tickLimit - 1)) + (1 # 2)).

(** The locators a program can hold: built by a constructor, then changed
    by setters and [setValues], with calls of [locations] in between. *)
Inductive reachable : Locator -> Prop :=
| reach_null :
    reachable ANullLocator
| reach_linear_init num :
    reachable (ALinearLocator (LinearLocator.__init__ num))
| reach_linear_setNum num self :
    reachable (ALinearLocator self) ->
    reachable (ALinearLocator (LinearLocator.setNum num self))
| reach_linear_setValues kwargs self :
    reachable (ALinearLocator self) ->
    reachable (ALinearLocator (LinearLocator.setValues kwargs self))
| reach_fixed_init locations nTicks :
    reachable (AFixedLocator (FixedLocator.__init__ locations nTicks))
| reach_fixed_setLocations locations self :
    reachable (AFixedLocator self) ->
    reachable (AFixedLocator (FixedLocator.setLocations locations self))
| reach_fixed_setNTicks nTicks self :
    reachable (AFixedLocator self) ->
    reachable (AFixedLocator (FixedLocator.setNTicks nTicks self))
| reach_fixed_setValues kwargs self :
    reachable (AFixedLocator self) ->
    reachable (AFixedLocator (FixedLocator.setValues kwargs self))
| reach_spaced_init base anchor :
    reachable (ASpacedLocator (SpacedLocator.__init__ base anchor))
| reach_spaced_setBase base self :
    reachable (ASpacedLocator self) ->
    reachable (ASpacedLocator (SpacedLocator.setBase base self))
| reach_spaced_setAnchor anchor self :
    reachable (ASpacedLocator self) ->
    reachable (ASpacedLocator (SpacedLocator.setAnchor anchor self))
| reach_spaced_setValues kwargs self :
    reachable (ASpacedLocator self) ->
    reachable (ASpacedLocator (SpacedLocator.setValues kwargs self))
| reach_log_init base subdivisions :
    reachable (ALogLocator (LogLocator.__init__ base subdivisions))
| reach_log_setBase base self :
    reachable (ALogLocator self) ->
    reachable (ALogLocator (LogLocator.setBase base self))
| reach_log_setSubdivisions subdivisions self :
    reachable (ALogLocator self) ->
    reachable (ALogLocator (LogLocator.setSubdivisions subdivisions self))
| reach_log_setValues kwargs self :
    reachable (ALogLocator self) ->
    reachable (ALogLocator (LogLocator.setValues kwargs self))
| reach_locations fuel self start end_ axisType :
    reachable self ->
    reachable (fst (locations fuel self start end_ axisType)).

(** What the setters keep true: a tick limit is never below 2, and the
    base of a SpacedLocator is positive. *)
Definition configured (self : Locator) : Prop :=
  match self with
  | AFixedLocator l =>
      match FixedLocator._nTicks l with
      | FixedLocator.IsInt k => 2 <= k
      | _ => True
      end
  | ASpacedLocator l => (0 < Qof (SpacedLocator._base l))%Q
  | _ => True
  end.

(** A stand-in for the two built-ins, to run the labelers on in examples;
    it is not Python's [str] and [%]: every value that is not a string is
    written ["?"], and the format is put in front of the text of the
    value, except for [None], on which it raises. *)
Definition sample_strings : PyStrings :=
  {| str_other := fun _ => "?"%string;
     format := fun fmt v =>
       match v with
       | PyNone => Raise TypeError
       | PyStr s => Ok (String.append fmt s)
       | _ => Ok (String.append fmt "?")
       end |}.

(** * Properties *)

(** ** Numbers *)

Lemma Qltb_true (x y : Q) : Qltb x y = true <-> (x < y)%Q.
Proof.
  unfold Qltb. rewrite Qlt_alt. destruct (x ?= y)%Q; split; congruence.
Qed.

Lemma Qltb_false (x y : Q) : Qltb x y = false <-> (y <= x)%Q.
Proof.
  rewrite <- not_true_iff_false, Qltb_true. split.
  - apply Qnot_lt_le.
  - apply Qle_not_lt.
Qed.

(** A boolean test on rationals is false when its proposition fails. *)
Ltac Qtest_false :=
  apply not_true_iff_false;
  let H := fresh in
  intros H; first [apply Qle_bool_iff in H | apply Qeq_bool_iff in H]; lra.

Lemma Qof_num_add (a b : num) : (Qof (num_add a b) == Qof a + Qof b)%Q.
Proof.
  destruct a, b; simpl; try apply Qred_correct.
  rewrite inject_Z_plus. reflexivity.
Qed.


Lemma Qof_num_mul (a b : num) : (Qof (num_mul a b) == Qof a * Qof b)%Q.
Proof.
  destruct a, b; simpl; try apply Qred_correct.
  rewrite inject_Z_mult. reflexivity.
Qed.


Lemma num_ltb_false (a b : num) : num_ltb a b = false <-> (Qof b <= Qof a)%Q.
Proof. apply Qltb_false. Qed.

Lemma num_gtb_true (a b : num) : num_gtb a b = true <-> (Qof b < Qof a)%Q.
Proof. apply Qltb_true. Qed.

Lemma num_gtb_false (a b : num) : num_gtb a b = false <-> (Qof a <= Qof b)%Q.
Proof. apply Qltb_false. Qed.

Lemma float_div_ok (a b : Q) :
  ~ (b == 0)%Q -> float_div a b = Ok (Qred (a / b)).
Proof.
  intros Hb. unfold float_div.
  destruct (Qeq_bool b 0) eqn:E; [|reflexivity].
  apply Qeq_bool_iff in E. contradiction.
Qed.

Lemma float_div_zero (a b : Q) :
  (b == 0)%Q -> float_div a b = Raise ZeroDivisionError.
Proof.
  intros Hb. unfold float_div. apply Qeq_bool_iff in Hb. rewrite Hb. reflexivity.
Qed.

Lemma inject_Z_succ_nat (i : nat) :
  (inject_Z (Z.of_nat (S i)) == inject_Z (Z.of_nat i) + 1)%Q.
Proof. rewrite Nat2Z.inj_succ. unfold Z.succ. rewrite inject_Z_plus. reflexivity. Qed.

(** ** LinearLocator *)

(** The loop appends [n] positions: the first is [start] itself and the
    [i]-th has the value [start + i * delta]. *)
Lemma linear_loop_spec (n : nat) (delta : Q) :
  forall (start : num) (locs : list num),
  exists steps,
    LinearLocator.loop n delta start locs = locs ++ steps /\
    length steps = n /\
    forall i, (i < n)%nat ->
      exists x, steps !! i = Some x /\
                (i = 0%nat -> x = start) /\
                (Qof x == Qof start + inject_Z (Z.of_nat i) * delta)%Q.
Proof.
  induction n as [|n IH]; intros start locs.
  - exists []. simpl. rewrite app_nil_r. repeat split; intros; lia.
  - destruct (IH (num_add start (NFloat delta)) (locs ++ [start]))
      as (steps & Heq & Hlen & Hnth).
    exists (start :: steps). simpl. rewrite Heq, <- app_assoc. simpl.
    repeat split; [congruence|].
    intros [|i] Hi.
    + exists start. simpl. repeat split.
      change (inject_Z (Z.of_nat 0)) with 0%Q. lra.
    + destruct (Hnth i ltac:(lia)) as (x & Hx & _ & Hval).
      exists x. simpl. repeat split; [assumption|lia|].
      rewrite Hval, Qof_num_add, inject_Z_succ_nat. simpl. lra.
Qed.

Lemma linear_delta (start end_ : num) (n : Z) :
  n <> 1 ->
  exists delta,
    float_div (float_sub (float_ end_) (float_ start)) (float_ (NInt (n - 1)))
      = Ok delta /\
    (delta == (Qof end_ - Qof start) / inject_Z (n - 1))%Q.
Proof.
  intros Hn.
  assert (Hnz : ~ (inject_Z (n - 1) == 0)%Q).
  { change 0%Q with (inject_Z 0). rewrite inject_Z_injective. lia. }
  eexists. split.
  - apply float_div_ok. unfold float_. simpl. rewrite Qred_correct. exact Hnz.
  - unfold float_sub, float_. simpl. rewrite !Qred_correct. reflexivity.
Qed.



(** C9. With count 1 on a major axis the divisor [float(num - 1)] is zero:
    the call raises [ZeroDivisionError], for every [start] and [end], and a
    count of 1 is what the constructor and [setNum] store for the integer 1. *)
Theorem C9_linear_count_one_divides_by_zero :
  forall (self : LinearLocator.t) (start end_ : num),
    LinearLocator._num (LinearLocator.__init__ (PyInt 1)) = 1 /\
    LinearLocator._num (LinearLocator.setNum (PyInt 1) self) = 1 /\
    float_ (NInt (LinearLocator._num (LinearLocator.setNum (PyInt 1) self) - 1)) = 0%Q /\
    LinearLocator.locations (LinearLocator.__init__ (PyInt 1)) start end_ "major"
      = Raise ZeroDivisionError /\
    LinearLocator.locations (LinearLocator.setNum (PyInt 1) self) start end_ "major"
      = Raise ZeroDivisionError.
Proof.
  intros self start end_. repeat split.
Qed.

(** ** SpacedLocator *)



Lemma walk_head step test x l : walk step test x l -> exists l', l = x :: l'.
Proof. destruct 1; eauto. Qed.



(** Integers: the steps are exact, and both loops end. *)
Lemma steps_spec (from to step : Z) :
  0 < step ->
  (forall i : nat, (i < steps from to step)%nat -> from + Z.of_nat i * step < to)
  /\ to <= from + Z.of_nat (steps from to step) * step.
Proof.
  intros Hb. unfold steps. set (q := (to - from + step - 1) / step).
  assert (Hq : step * q <= to - from + step - 1 < step * (q + 1)).
  { unfold q. split.
    - apply Z.mul_div_le. lia.
    - rewrite Z.mul_add_distr_l, Z.mul_1_r.
      pose proof (Z.mod_pos_bound (to - from + step - 1) step Hb).
      pose proof (Z.div_mod (to - from + step - 1) step ltac:(lia)). lia. }
  split.
  - intros i Hi. assert (Z.of_nat i < q) by lia. nia.
  - destruct (Z.le_gt_cases 0 q).
    + rewrite Z2Nat.id by lia. nia.
    + replace (Z.to_nat q) with 0%nat by lia. simpl. nia.
Qed.

Lemma grid_S (first step : Z) (n : nat) :
  grid first step (S n) = Binary64.PInt first :: grid (first + step) step n.
Proof.
  unfold grid. simpl. f_equal; [f_equal; lia|].
  rewrite <- seq_shift, map_map. apply map_ext. intros i. f_equal. lia.
Qed.


Lemma grid_app (first step : Z) (n m : nat) :
  grid first step n ++ grid (first + Z.of_nat n * step) step m
  = grid first step (n + m).
Proof.
  revert first. induction n as [|n IH]; intros first.
  - simpl. f_equal. lia.
  - rewrite Nat.add_succ_l, !grid_S. simpl. f_equal.
    rewrite <- IH. do 2 f_equal. lia.
Qed.

Lemma grid_rev (first step : Z) (n : nat) :
  rev (grid first (- step) (S n)) = grid (first - Z.of_nat n * step) step (S n).
Proof.
  revert first. induction n as [|n IH]; intros first.
  - unfold grid. simpl. do 2 f_equal. lia.
  - rewrite grid_S. cbn [rev]. rewrite IH.
    replace (S (S n)) with (S n + 1)%nat by lia.
    rewrite <- grid_app. f_equal.
    + f_equal. lia.
    + unfold grid. simpl. do 2 f_equal. lia.
Qed.

Lemma spaced_walk_up_ints (b e : Z) (k : nat) :
  forall (s : Z) (locs : list Binary64.pynum) (fuel : nat),
    (forall i : nat, (i < k)%nat -> s + Z.of_nat i * b < e) ->
    e <= s + Z.of_nat k * b ->
    (k < fuel)%nat ->
    Binary64.SpacedLocator.walk_up fuel (Binary64.PInt b) (Binary64.PInt e)
      (Binary64.PInt s) locs
    = Some (Ok (locs ++ grid s b (S k))).
Proof.
  induction k as [|k IH]; intros s locs fuel Hlt Hge Hfuel;
    (destruct fuel as [|fuel]; [lia|]);
    cbn [Binary64.SpacedLocator.walk_up Binary64.py_lt Binary64.py_add].
  - assert (E : (s <? e) = false) by (apply Z.ltb_ge; simpl in Hge; lia).
    rewrite E. unfold grid. simpl.
    replace (s + Z.of_nat 0 * b) with s by lia. reflexivity.
  - assert (E : (s <? e) = true).
    { apply Z.ltb_lt. specialize (Hlt 0%nat ltac:(lia)). simpl in Hlt. lia. }
    rewrite E. rewrite (IH (s + b)); [| | |lia].
    + rewrite grid_S with (n := S k), <- app_assoc. reflexivity.
    + intros i Hi. specialize (Hlt (S i) ltac:(lia)). lia.
    + lia.
Qed.

Lemma spaced_walk_down_ints (b s : Z) (k : nat) :
  forall (a : Z) (locs : list Binary64.pynum) (fuel : nat),
    (forall i : nat, (i < k)%nat -> s < a - Z.of_nat i * b) ->
    a - Z.of_nat k * b <= s ->
    (k < fuel)%nat ->
    Binary64.SpacedLocator.walk_down fuel (Binary64.PInt b) (Binary64.PInt s)
      (Binary64.PInt a) locs
    = Some (Ok (rev (grid a (- b) (S k)) ++ locs)).
Proof.
  induction k as [|k IH]; intros a locs fuel Hlt Hge Hfuel;
    (destruct fuel as [|fuel]; [lia|]);
    cbn [Binary64.SpacedLocator.walk_down Binary64.py_gt Binary64.py_lt Binary64.py_sub].
  - assert (E : (s <? a) = false) by (apply Z.ltb_ge; simpl in Hge; lia).
    rewrite E. unfold grid. simpl.
    replace (a + Z.of_nat 0 * - b) with a by lia. reflexivity.
  - assert (E : (s <? a) = true).
    { apply Z.ltb_lt. specialize (Hlt 0%nat ltac:(lia)). simpl in Hlt. lia. }
    rewrite E. rewrite (IH (a - b)); [| | |lia].
    + rewrite grid_S with (n := S k). cbn [rev].
      rewrite <- app_assoc. simpl.
      replace (a + - b) with (a - b) by lia. reflexivity.
    + intros i Hi. specialize (Hlt (S i) ltac:(lia)). lia.
    + lia.
Qed.

(** The steps down from [a] to [s] are the steps up from [s] to [a]. *)
Lemma steps_down_spec (s a b : Z) :
  0 < b ->
  (forall i : nat, (i < steps s a b)%nat -> s < a - Z.of_nat i * b)
  /\ a - Z.of_nat (steps s a b) * b <= s.
Proof.
  intros Hb. destruct (steps_spec s a b Hb) as [H1 H2]. split.
  - intros i Hi. specialize (H1 i Hi). lia.
  - lia.
Qed.


Lemma spaced_ints_anchored (b a s e : Z) (axisType : string) (fuel : nat) :
  0 < b -> (steps s a b < fuel)%nat -> (steps (a + b) e b < fuel)%nat ->
  Binary64.SpacedLocator.locations fuel
    {| Binary64.SpacedLocator._base := Binary64.PInt b;
       Binary64.SpacedLocator._anchor := Some (Binary64.PInt a) |}
    (Binary64.PInt s) (Binary64.PInt e) axisType
  = Some (Ok (rev (grid a (- b) (S (steps s a b)))
              ++ grid (a + b) b (S (steps (a + b) e b)))).
Proof.
  intros Hb Hf1 Hf2.
  destruct (steps_down_spec s a b Hb) as [H1 H2].
  destruct (steps_spec (a + b) e b Hb) as [H3 H4].
  unfold Binary64.SpacedLocator.locations. simpl.
  rewrite (spaced_walk_down_ints b s (steps s a b)) by assumption.
  rewrite (spaced_walk_up_ints b e (steps (a + b) e b)) by assumption.
  rewrite app_nil_r. reflexivity.
Qed.











(** C8. [setValues] of a SpacedLocator reads the anchor in three ways: no
    [anchor] key leaves the anchor as it is, [anchor=None] clears it, and
    a number becomes the anchor.  The base is set from the [base] key
    alone, whatever the anchor key holds: a positive number is stored, and
    without the key the base stays. *)
Theorem C8_spaced_setValues_anchor :
  forall (kwargs : gmap string pyval) (self : SpacedLocator.t),
    (kwargs !! "anchor"%string = None ->
     SpacedLocator._anchor (SpacedLocator.setValues kwargs self)
     = SpacedLocator._anchor self) /\
    (kwargs !! "anchor"%string = Some PyNone ->
     SpacedLocator._anchor (SpacedLocator.setValues kwargs self) = None) /\
    (forall v a, kwargs !! "anchor"%string = Some v -> as_num v = Some a ->
     SpacedLocator._anchor (SpacedLocator.setValues kwargs self) = Some a) /\
    SpacedLocator._base (SpacedLocator.setValues kwargs self)
    = SpacedLocator._base
        (SpacedLocator.setBase (default PyNone (kwargs !! "base"%string)) self) /\
    (forall v b, kwargs !! "base"%string = Some v -> as_num v = Some b ->
     (0 < Qof b)%Q ->
     SpacedLocator._base (SpacedLocator.setValues kwargs self) = b) /\
    (kwargs !! "base"%string = None ->
     SpacedLocator._base (SpacedLocator.setValues kwargs self)
     = SpacedLocator._base self).
Proof.
  intros kwargs self. unfold SpacedLocator.setValues.
  assert (Hbase : forall v s, SpacedLocator._base (SpacedLocator.setAnchor v s)
                              = SpacedLocator._base s).
  { intros v s. unfold SpacedLocator.setAnchor.
    destruct v; simpl; reflexivity. }
  assert (Hanchor : forall v s, SpacedLocator._anchor (SpacedLocator.setBase v s)
                                = SpacedLocator._anchor s).
  { intros v s. unfold SpacedLocator.setBase.
    destruct (as_num v) as [b|]; [destruct (num_gtb b (NInt 0))|]; reflexivity. }
  repeat split.
  - intros ->. simpl. apply Hanchor.
  - intros ->. reflexivity.
  - intros v a -> Ha. simpl. unfold SpacedLocator.setAnchor.
    destruct v; simpl in Ha; try discriminate; rewrite ?Ha; simpl; congruence.
  - apply Hbase.
  - intros v b -> Hv Hb. rewrite Hbase. simpl. unfold SpacedLocator.setBase.
    rewrite Hv.
    assert (E : num_gtb b (NInt 0) = true) by (apply num_gtb_true; exact Hb).
    rewrite E. reflexivity.
  - intros ->. rewrite Hbase. reflexivity.
Qed.

Lemma C8_spaced_setValues_anchor_witness :
  SpacedLocator._anchor
    (SpacedLocator.setValues ({[ "base"%string := PyInt 2 ]})
       (SpacedLocator.__init__ (PyInt 5) (PyInt 3))) = Some (NInt 3) /\
  SpacedLocator._anchor
    (SpacedLocator.setValues ({[ "anchor"%string := PyNone ]})
       (SpacedLocator.__init__ (PyInt 5) (PyInt 3))) = None /\
  SpacedLocator._anchor
    (SpacedLocator.setValues ({[ "anchor"%string := PyFloat (7 # 2) ]})
       (SpacedLocator.__init__ (PyInt 5) (PyInt 3))) = Some (NFloat (7 # 2)).
Proof.
  split; [|split].
  - apply (proj1 (C8_spaced_setValues_anchor ({[ "base"%string := PyInt 2 ]})
                    (SpacedLocator.__init__ (PyInt 5) (PyInt 3)))).
    vm_compute. reflexivity.
  - apply (proj1 (proj2 (C8_spaced_setValues_anchor ({[ "anchor"%string := PyNone ]})
                           (SpacedLocator.__init__ (PyInt 5) (PyInt 3))))).
    vm_compute. reflexivity.
  - apply (proj1 (proj2 (proj2 (C8_spaced_setValues_anchor
                                  ({[ "anchor"%string := PyFloat (7 # 2) ]})
                                  (SpacedLocator.__init__ (PyInt 5) (PyInt 3)))))
             (PyFloat (7 # 2)) (NFloat (7 # 2))).
    + vm_compute. reflexivity.
    + reflexivity.
Defined.

(** ** Setters *)

(** [setNum] checks the type of its input and nothing else: a negative
    count is stored, and [locations] changes with it.  So it is not true
    that an input other than a positive integer leaves the count alone. *)
Lemma C3_setNum_stores_negative_count :
  (LinearLocator.setNum (PyInt (-3)) (LinearLocator.__init__ (PyInt 5))
   = {| LinearLocator._num := -3 |} /\
   LinearLocator.locations (LinearLocator.__init__ (PyInt 5))
     (NInt 0) (NInt 100) "major"
   = Ok [NInt 0; NFloat 25; NFloat 50; NFloat 75; NInt 100] /\
   LinearLocator.locations
     (LinearLocator.setNum (PyInt (-3)) (LinearLocator.__init__ (PyInt 5)))
     (NInt 0) (NInt 100) "major"
   = Ok [NInt 100]) /\
  ~ (forall (v : pyval) (self : LinearLocator.t),
        (forall n, as_int v = Some n -> n <= 0) ->
        LinearLocator.setNum v self = self).
Proof.
  split; [repeat split; vm_compute; reflexivity|].
  intros H.
  specialize (H (PyInt (-3)) {| LinearLocator._num := 5 |}).
  discriminate H. intros n Hn. injection Hn as <-. lia.
Qed.

(** C3, amended. Every setter is a check of the type of its input
    ([SpacedLocator.setBase] also asks for a positive base, and [setNTicks]
    turns an integer below 2 into 2); an input that fails the check leaves
    the configuration as it was, and no setter raises.  [setNum] stores any
    integer, whatever its sign, and [LogLocator.setBase] any number.  After
    [setNum] of a non-integer, [locations] is what it was before. *)
Theorem C3_setters_reject_by_type :
  (forall v self, as_int v = None -> LinearLocator.setNum v self = self) /\
  (forall v self start end_ axisType, as_int v = None ->
     LinearLocator.locations (LinearLocator.setNum v self) start end_ axisType
     = LinearLocator.locations self start end_ axisType) /\
  (forall v n self, as_int v = Some n ->
     LinearLocator._num (LinearLocator.setNum v self) = n) /\
  (forall v self, as_seq v = None -> FixedLocator.setLocations v self = self) /\
  (forall v self, v <> PyNone -> as_int v = None ->
     FixedLocator.setNTicks v self = self) /\
  (forall v k self, as_int v = Some k ->
     FixedLocator._nTicks (FixedLocator.setNTicks v self)
     = FixedLocator.IsInt (Z.max 2 k)) /\
  (forall v self, as_num v = None -> SpacedLocator.setBase v self = self) /\
  (forall v b self, as_num v = Some b -> (Qof b <= 0)%Q ->
     SpacedLocator.setBase v self = self) /\
  (forall v self, v <> PyNone -> as_num v = None ->
     SpacedLocator.setAnchor v self = self) /\
  (forall v self, as_num v = None -> LogLocator.setBase v self = self) /\
  (forall v b self, as_num v = Some b ->
     LogLocator._base (LogLocator.setBase v self) = b) /\
  (forall v self, as_seq v = None -> LogLocator.setSubdivisions v self = self) /\
  (forall v self, as_seq v = None -> StringLabeler.setLabels v self = self) /\
  (forall v self, v <> PyNone -> (forall s, v <> PyStr s) ->
     FormatLabeler.setFormatter v self = self).
Proof.
  repeat split.
  - intros v self H. unfold LinearLocator.setNum. rewrite H. reflexivity.
  - intros v self start end_ axisType H. unfold LinearLocator.setNum.
    rewrite H. reflexivity.
  - intros v n self H. unfold LinearLocator.setNum. rewrite H. reflexivity.
  - intros v self H. unfold FixedLocator.setLocations. rewrite H. reflexivity.
  - intros v self Hnone H. unfold FixedLocator.setNTicks. rewrite H.
    destruct v; try reflexivity. contradiction.
  - intros v k self H. unfold FixedLocator.setNTicks.
    destruct v; simpl in H; try discriminate; injection H as <-; simpl;
      match goal with |- context [?a <? 2] => destruct (Z.ltb_spec a 2) end;
      simpl; f_equal; lia.
  - intros v self H. unfold SpacedLocator.setBase. rewrite H. reflexivity.
  - intros v b self H Hb. unfold SpacedLocator.setBase. rewrite H.
    assert (E : num_gtb b (NInt 0) = false) by (apply num_gtb_false; exact Hb).
    rewrite E. reflexivity.
  - intros v self Hnone H. unfold SpacedLocator.setAnchor. rewrite H.
    destruct v; try reflexivity. contradiction.
  - intros v self H. unfold LogLocator.setBase. rewrite H. reflexivity.
  - intros v b self H. unfold LogLocator.setBase. rewrite H. reflexivity.
  - intros v self H. unfold LogLocator.setSubdivisions. rewrite H. reflexivity.
  - intros v self H. unfold StringLabeler.setLabels. rewrite H. reflexivity.
  - intros v self Hnone Hstr. unfold FormatLabeler.setFormatter.
    destruct v; try reflexivity; [contradiction|].
    exfalso. eapply Hstr. reflexivity.
Qed.

Lemma C3_setters_reject_by_type_witness :
  LinearLocator.setNum (PyFloat (7 # 2)) (LinearLocator.__init__ (PyInt 5))
  = LinearLocator.__init__ (PyInt 5) /\
  LinearLocator.locations
    (LinearLocator.setNum (PyStr "7") (LinearLocator.__init__ (PyInt 5)))
    (NInt 0) (NInt 100) "major"
  = LinearLocator.locations (LinearLocator.__init__ (PyInt 5))
      (NInt 0) (NInt 100) "major" /\
  SpacedLocator.setBase (PyInt (-2)) (SpacedLocator.__init__ (PyInt 5) PyNone)
  = SpacedLocator.__init__ (PyInt 5) PyNone.
Proof.
  split; [|split].
  - apply (proj1 C3_setters_reject_by_type). reflexivity.
  - apply (proj1 (proj2 C3_setters_reject_by_type)). reflexivity.
  - apply (proj1 (proj2 (proj2 (proj2 (proj2 (proj2 (proj2 (proj2
             C3_setters_reject_by_type))))))) (PyInt (-2)) (NInt (-2))).
    + reflexivity.
    + discriminate.
Defined.

(** ** Reachable locators *)

Lemma fixed_setLocations_nTicks v self :
  FixedLocator._nTicks (FixedLocator.setLocations v self) = FixedLocator._nTicks self.
Proof. unfold FixedLocator.setLocations. destruct (as_seq v); reflexivity. Qed.

Lemma fixed_setNTicks_configured v self :
  configured (AFixedLocator self) ->
  configured (AFixedLocator (FixedLocator.setNTicks v self)).
Proof.
  intros H. unfold FixedLocator.setNTicks.
  destruct v; simpl; try exact H; try exact I;
    match goal with |- context [?a <? 2] => destruct (Z.ltb_spec a 2) end;
    simpl; lia.
Qed.

Lemma fixed_setLocations_configured v self :
  configured (AFixedLocator self) ->
  configured (AFixedLocator (FixedLocator.setLocations v self)).
Proof. simpl. rewrite fixed_setLocations_nTicks. auto. Qed.

Lemma spaced_setBase_configured v self :
  configured (ASpacedLocator self) ->
  configured (ASpacedLocator (SpacedLocator.setBase v self)).
Proof.
  intros H. unfold SpacedLocator.setBase.
  destruct (as_num v) as [b|]; [|exact H].
  destruct (num_gtb b (NInt 0)) eqn:E; [|exact H].
  apply num_gtb_true in E. exact E.
Qed.

Lemma spaced_setAnchor_configured v self :
  configured (ASpacedLocator self) ->
  configured (ASpacedLocator (SpacedLocator.setAnchor v self)).
Proof. intros H. unfold SpacedLocator.setAnchor. destruct v; exact H. Qed.

(** Under the invariant, [FixedLocator.locations] leaves the locator as it is. *)
Lemma fixed_locations_state self start end_ axisType :
  configured (AFixedLocator self) ->
  fst (FixedLocator.locations self start end_ axisType) = self.
Proof.
  intros H. unfold FixedLocator.locations.
  destruct (FixedLocator._nTicks self) as [| |k] eqn:E; try reflexivity.
  destruct (_ <=? k); [reflexivity|].
  simpl in H. rewrite E in H.
  destruct (Z.ltb_spec k 2); [lia|reflexivity].
Qed.

Lemma locations_state fuel self start end_ axisType :
  configured self -> fst (locations fuel self start end_ axisType) = self.
Proof.
  intros H. destruct self as [|l|l|l|l]; try reflexivity.
  simpl.
  pose proof (fixed_locations_state l start end_ axisType H) as Hl.
  destruct (FixedLocator.locations l start end_ axisType) as [l' r].
  simpl in *. congruence.
Qed.

Lemma reachable_configured self : reachable self -> configured self.
Proof.
  induction 1;
    try exact I;
    try (unfold FixedLocator.setValues;
         repeat match goal with |- context [?m !! ?k] => destruct (m !! k) end);
    try (unfold SpacedLocator.setValues, SpacedLocator.__init__);
    unfold FixedLocator.__init__;
    repeat first [ apply fixed_setNTicks_configured
                 | apply fixed_setLocations_configured
                 | apply spaced_setAnchor_configured
                 | apply spaced_setBase_configured ];
    try assumption; try exact I; try reflexivity.
  rewrite locations_state; assumption.
Qed.

(** The base of a SpacedLocator a program can hold is positive: the two
    walks of its [locations] end. *)
Lemma spaced_reachable_base_positive (self : SpacedLocator.t) :
  reachable (ASpacedLocator self) -> (0 < Qof (SpacedLocator._base self))%Q.
Proof. intros H. exact (reachable_configured _ H). Qed.

(** ** FixedLocator *)

Lemma py_int_inject_Z (z : Z) : py_int (inject_Z z) = z.
Proof. unfold py_int. destruct (Qltb _ _); [apply Qceiling_Z|apply Qfloor_Z]. Qed.

(** The index of the [i]-th pick, as the code computes it, is the nearest
    integer to [i * d], halves upwards. *)
Lemma exact_subsample_index (i : Z) (d : Q) :
  0 <= i -> (0 <= d)%Q ->
  py_int (py_round (Qred (inject_Z i * d))) = Qfloor (inject_Z i * d + (1 # 2)).
Proof.
  intros Hi Hd.
  assert (Hx : (0 <= Qred (inject_Z i * d))%Q).
  { rewrite Qred_correct. apply Qmult_le_0_compat; [|exact Hd].
    change 0%Q with (inject_Z 0). rewrite <- Zle_Qle. exact Hi. }
  unfold py_round.
  assert (E : Qltb (Qred (inject_Z i * d)) 0 = false) by (apply Qltb_false; exact Hx).
  rewrite E, py_int_inject_Z.
  apply Qfloor_comp. rewrite Qred_correct. reflexivity.
Qed.

Lemma round_index_bounds (i len k : Z) :
  0 <= i <= k - 1 -> 1 <= k - 1 -> 1 <= len ->
  0 <= round_index i len k < len.
Proof.
  intros Hi Hk Hlen. unfold round_index.
  set (r := (inject_Z (len - 1) / inject_Z (k - 1))%Q).
  assert (HK : (1 <= inject_Z (k - 1))%Q).
  { change 1%Q with (inject_Z 1). rewrite <- Zle_Qle. lia. }
  assert (HL : (0 <= inject_Z (len - 1))%Q).
  { change 0%Q with (inject_Z 0). rewrite <- Zle_Qle. lia. }
  assert (HI : (0 <= inject_Z i <= inject_Z (k - 1))%Q).
  { split; [change 0%Q with (inject_Z 0)|]; rewrite <- Zle_Qle; lia. }
  assert (Hr : (r * inject_Z (k - 1) == inject_Z (len - 1))%Q).
  { unfold r. field. lra. }
  assert (Hr0 : (0 <= r)%Q).
  { unfold r. apply Qle_shift_div_l; lra. }
  assert (Hx : (0 <= inject_Z i * r <= inject_Z (len - 1))%Q).
  { split; [apply Qmult_le_0_compat; lra|].
    rewrite <- Hr. rewrite (Qmult_comm r).
    apply Qmult_le_compat_r; lra. }
  split.
  - change 0 with (Qfloor 0). apply Qfloor_resp_le. lra.
  - rewrite Zlt_Qlt.
    apply Qle_lt_trans with (inject_Z i * r + (1 # 2))%Q; [apply Qfloor_le|].
    apply Qle_lt_trans with (inject_Z (len - 1) + (1 # 2))%Q; [lra|].
    assert (E : (inject_Z (len - 1) == inject_Z len - 1)%Q).
    { unfold Z.sub. rewrite inject_Z_plus. reflexivity. }
    rewrite E. lra.
Qed.

Lemma py_index_nonneg {A : Type} (l : list A) (i : Z) (x : A) :
  0 <= i -> l !! Z.to_nat i = Some x -> py_index l i = Ok x.
Proof.
  intros Hi Hx. unfold py_index.
  destruct (Z.ltb_spec i 0); [lia|]. simpl.
  destruct (Z.ltb_spec i 0); [lia|]. rewrite Hx. reflexivity.
Qed.

Lemma py_index_last {A : Type} (l : list A) (x : A) :
  last l = Some x -> py_index l (-1) = Ok x.
Proof.
  intros Hx. rewrite last_lookup in Hx.
  assert (Hlen : (0 < length l)%nat).
  { apply lookup_lt_Some in Hx. lia. }
  unfold py_index. simpl.
  destruct (Z.ltb_spec (-1 + Z.of_nat (length l)) 0); [lia|].
  replace (Z.to_nat (-1 + Z.of_nat (length l))) with (pred (length l)) by lia.
  rewrite Hx. reflexivity.
Qed.

(** The subsampling loop, when every index it takes is one of the list. *)
Lemma fixed_loop_spec (d : Q) (positions : list pyval) (range : list Z) :
  (forall i, i ∈ range ->
     exists x, py_index positions (py_int (py_round (Qred (inject_Z i * d)))) = Ok x) ->
  forall locs, exists picks,
    FixedLocator.loop range d positions locs = Ok (locs ++ picks) /\
    Forall2 (fun i x =>
               py_index positions (py_int (py_round (Qred (inject_Z i * d)))) = Ok x)
            range picks.
Proof.
  induction range as [|i range IH]; intros Hrange locs.
  - exists []. simpl. rewrite app_nil_r. split; [reflexivity|constructor].
  - destruct (Hrange i ltac:(left)) as (x & Hx).
    destruct (IH ltac:(intros j Hj; apply Hrange; right; exact Hj) (locs ++ [x]))
      as (picks & Hloop & Hall).
    exists (x :: picks). simpl. rewrite Hx. simpl. rewrite Hloop, <- app_assoc.
    split; [reflexivity|]. constructor; assumption.
Qed.

Lemma subsample_pick (len k i : Z) (d : Q) :
  2 <= k -> k < len -> 0 <= i < k - 1 ->
  (d == inject_Z (len - 1) / inject_Z (k - 1))%Q ->
  py_int (py_round (Qred (inject_Z i * d))) = round_index i len k /\
  0 <= round_index i len k < len.
Proof.
  intros Hk Hlen Hi Hd. split; [|apply round_index_bounds; lia].
  assert (Hd0 : (0 <= d)%Q).
  { rewrite Hd. apply Qle_shift_div_l.
    - change 0%Q with (inject_Z 0). rewrite <- Zlt_Qlt. lia.
    - rewrite Qmult_0_l. change 0%Q with (inject_Z 0). rewrite <- Zle_Qle. lia. }
  rewrite exact_subsample_index by (lia || assumption).
  unfold round_index. apply Qfloor_comp. rewrite Hd. reflexivity.
Qed.





(** The subsampling branch: the picks, then the last position. *)
Lemma fixed_subsample_spec (self : FixedLocator.t) (start end_ : num)
      (axisType : string) (k : Z) :
  FixedLocator._nTicks self = FixedLocator.IsInt k ->
  2 <= k -> k < Z.of_nat (length (FixedLocator._locations self)) ->
  exists picks last_,
    FixedLocator.locations self start end_ axisType = (self, Ok (picks ++ [last_])) /\
    length picks = Z.to_nat (k - 1) /\
    last (FixedLocator._locations self) = Some last_ /\
    forall i : nat, (i < Z.to_nat (k - 1))%nat ->
      picks !! i
      = FixedLocator._locations self
          !! Z.to_nat (round_index (Z.of_nat i)
                         (Z.of_nat (length (FixedLocator._locations self))) k) /\
      (Z.to_nat (round_index (Z.of_nat i)
                   (Z.of_nat (length (FixedLocator._locations self))) k)
       < length (FixedLocator._locations self))%nat.
Proof.
  intros E Hk Hlen.
  set (positions := FixedLocator._locations self) in *.
  set (len := Z.of_nat (length positions)) in *.
  destruct (last positions) as [last_|] eqn:Hlast;
    [|exfalso; apply last_None in Hlast; subst len; rewrite Hlast in Hlen;
      simpl in Hlen; lia].
  set (d := Qred (float_ (NInt (len - 1)) / float_ (NInt (k - 1)))).
  assert (Hd : (d == inject_Z (len - 1) / inject_Z (k - 1))%Q).
  { unfold d, float_. simpl. rewrite !Qred_correct. reflexivity. }
  assert (Hdiv : float_div (float_ (NInt (len - 1))) (float_ (NInt (k - 1))) = Ok d).
  { apply float_div_ok. unfold float_. simpl. rewrite Qred_correct.
    change 0%Q with (inject_Z 0). rewrite inject_Z_injective. lia. }
  assert (Hidx : forall i, 0 <= i < k - 1 ->
             exists x, positions !! Z.to_nat (round_index i len k) = Some x /\
                       py_index positions (py_int (py_round (Qred (inject_Z i * d))))
                       = Ok x).
  { intros i Hi.
    destruct (subsample_pick len k i d) as (Hidx & Hbound); try lia; [exact Hd|].
    destruct (lookup_lt_is_Some_2 positions (Z.to_nat (round_index i len k)))
      as (x & Hx); [subst len; lia|].
    exists x. split; [exact Hx|]. rewrite Hidx.
    apply py_index_nonneg; [lia|exact Hx]. }
  destruct (fixed_loop_spec d positions (seqZ 0 (k - 1))) with (locs := @nil pyval)
    as (picks & Hloop & Hall).
  { intros i Hi. apply elem_of_seqZ in Hi.
    destruct (Hidx i ltac:(lia)) as (x & _ & Hx). exists x. exact Hx. }
  exists picks, last_. split; [|split; [|split; [reflexivity|]]].
  - unfold FixedLocator.locations. rewrite E. fold positions. fold len.
    destruct (Z.leb_spec len k); [lia|].
    destruct (Z.ltb_spec k 2); [lia|]. simpl.
    fold positions. rewrite Hdiv. simpl. rewrite Hloop. simpl.
    rewrite (py_index_last _ _ Hlast). reflexivity.
  - apply Forall2_length in Hall. rewrite length_seqZ in Hall. lia.
  - intros i Hi.
    assert (Hseq : seqZ 0 (k - 1) !! i = Some (Z.of_nat i)).
    { rewrite lookup_seqZ. lia. }
    destruct (Forall2_lookup_l _ _ _ _ _ Hall Hseq) as (x & Hx & Hpick).
    destruct (Hidx (Z.of_nat i) ltac:(lia)) as (y & Hy & Hpy).
    split; [congruence|]. apply lookup_lt_Some in Hy. exact Hy.
Qed.





(** The two passthrough and subsampling examples of a FixedLocator over
    the positions 1 to 10. *)
Lemma fixed_locations_examples :
  snd (FixedLocator.locations
         (FixedLocator.__init__
            (PyList (map PyInt [1; 2; 3; 4; 5; 6; 7; 8; 9; 10])) PyNone)
         (NInt 0) (NInt 1) "major")
  = Ok (map PyInt [1; 2; 3; 4; 5; 6; 7; 8; 9; 10]) /\
  snd (FixedLocator.locations
         (FixedLocator.__init__
            (PyList (map PyInt [1; 2; 3; 4; 5; 6; 7; 8; 9; 10])) (PyInt 3))
         (NInt 0) (NInt 1) "major")
  = Ok [PyInt 1; PyInt 6; PyInt 10].
Proof. split; vm_compute; reflexivity. Qed.

(** A FixedLocator built with a tick limit of the wrong type has no
    [_nTicks] at all, and [locations] raises. *)
Lemma fixed_locations_without_nTicks :
  FixedLocator.locations
    (FixedLocator.__init__ (PyList [PyInt 1; PyInt 2]) (PyStr "3"))
    (NInt 0) (NInt 1) "major"
  = ({| FixedLocator._locations := [PyInt 1; PyInt 2];
        FixedLocator._nTicks := FixedLocator.Unassigned |},
     Raise AttributeError).
Proof. reflexivity. Qed.

(** ** Calls that leave the configuration alone *)

(** The assignment in [FixedLocator.locations] does change a locator whose
    tick limit is below 2; no constructor or setter leaves one behind. *)
Lemma fixed_locations_assigns_below_two :
  fst (FixedLocator.locations
         {| FixedLocator._locations := [PyInt 1; PyInt 2; PyInt 3];
            FixedLocator._nTicks := FixedLocator.IsInt 0 |}
         (NInt 0) (NInt 1) "major")
  = {| FixedLocator._locations := [PyInt 1; PyInt 2; PyInt 3];
       FixedLocator._nTicks := FixedLocator.IsInt 2 |}.
Proof. reflexivity. Qed.

(** C7. A call of [locations] on a locator built by a constructor and
    setters returns the locator unchanged, so a second call with the same
    arguments gives what the first gave.  [labels] is a function of the
    labeler and the positions alone: two calls give one result. *)
Theorem C7_queries_leave_configuration :
  forall (fuel : nat) (self : Locator) (start end_ : num) (axisType : string),
    reachable self ->
    fst (locations fuel self start end_ axisType) = self /\
    locations fuel (fst (locations fuel self start end_ axisType)) start end_ axisType
    = locations fuel self start end_ axisType /\
    forall (builtins : PyStrings) (labeler : Labeler) (positions : list pyval) r1 r2,
      labels labeler positions = r1 -> labels labeler positions = r2 -> r1 = r2.
Proof.
  intros fuel self start end_ axisType Hreach.
  pose proof (locations_state fuel self start end_ axisType
                (reachable_configured self Hreach)) as Hstate.
  split; [exact Hstate|]. split.
  - rewrite Hstate. reflexivity.
  - intros builtins labeler positions r1 r2 <- <-. reflexivity.
Qed.

Lemma C7_queries_leave_configuration_witness :
  let self := AFixedLocator
                (FixedLocator.setNTicks (PyInt 0)
                   (FixedLocator.__init__
                      (PyList [PyInt 1; PyInt 2; PyInt 3]) PyNone)) in
  fst (locations 0 self (NInt 0) (NInt 1) "major") = self /\
  locations 0 (fst (locations 0 self (NInt 0) (NInt 1) "major"))
    (NInt 0) (NInt 1) "major"
  = locations 0 self (NInt 0) (NInt 1) "major" /\
  forall (builtins : PyStrings) (labeler : Labeler) (positions : list pyval) r1 r2,
    labels labeler positions = r1 -> labels labeler positions = r2 -> r1 = r2.
Proof.
  exact (C7_queries_leave_configuration 0
           (AFixedLocator
              (FixedLocator.setNTicks (PyInt 0)
                 (FixedLocator.__init__
                    (PyList [PyInt 1; PyInt 2; PyInt 3]) PyNone)))
           (NInt 0) (NInt 1) "major"%string
           (reach_fixed_setNTicks _ _ (reach_fixed_init _ _))).
Defined.

(** ** Labelers *)

Lemma mapM_result_spec {A B : Type} (f : A -> result B) (l : list A) :
  match mapM f l with
  | Ok out => length out = length l
  | Raise e => exists x, x ∈ l /\ f x = Raise e
  end.
Proof.
  induction l as [|x l IH]; simpl; [reflexivity|].
  destruct (f x) as [y|e] eqn:Hx; simpl.
  - destruct (mapM f l) as [out|e]; simpl.
    + congruence.
    + destruct IH as (x' & Hin & Hx'). exists x'. split; [right; exact Hin|exact Hx'].
  - exists x. split; [left|exact Hx].
Qed.

Lemma string_labels_padded `{PyStrings} (self : StringLabeler.t) (locations : list pyval) :
  StringLabeler.labels self locations
  = map str (take (length locations) (StringLabeler._labels self))
      ++ replicate (length locations - length (StringLabeler._labels self))%nat
           EmptyString.
Proof.
  unfold StringLabeler.labels. simpl.
  set (n := length locations). set (ls := StringLabeler._labels self).
  destruct (Nat.eqb_spec n (length ls)) as [E|E].
  - rewrite E, firstn_all, Nat.sub_diag. simpl. rewrite app_nil_r. reflexivity.
  - destruct (Nat.ltb_spec (length ls) n) as [L|L].
    + rewrite take_ge by lia. rewrite map_app.
      f_equal. generalize (n - length ls)%nat. intros m.
      induction m; simpl; congruence.
    + destruct (Nat.ltb_spec n (length ls)); [|lia].
      replace (n - length ls)%nat with 0%nat by lia. simpl.
      rewrite app_nil_r. reflexivity.
Qed.

(** C1. The list a labeler returns has the length of the list of
    positions.  A NullLabeler and a StringLabeler always return;
    a StringLabeler gives its labels, cut to the number of positions and
    padded with empty strings up to it.  A FormatLabeler returns unless
    its format raises on one of the positions. *)
Theorem C1_labels_length :
  forall (builtins : PyStrings) (labeler : Labeler) (positions : list pyval),
    match labels labeler positions with
    | Ok strings => length strings = length positions
    | Raise e =>
        exists self fmt p,
          labeler = AFormatLabeler self /\
          FormatLabeler._fmt self = Some fmt /\
          p ∈ positions /\ format fmt p = Raise e
    end /\
    length (NullLabeler.labels positions) = length positions /\
    (forall self : StringLabeler.t,
        length (StringLabeler.labels self positions) = length positions /\
        StringLabeler.labels self positions
        = map str (take (length positions) (StringLabeler._labels self))
            ++ replicate (length positions - length (StringLabeler._labels self))%nat
                 EmptyString) /\
    FormatLabeler.labels {| FormatLabeler._fmt := None |} positions
    = Ok (map str positions).
Proof.
  intros builtins labeler positions.
  assert (Hnull : length (NullLabeler.labels positions) = length positions).
  { unfold NullLabeler.labels. apply length_replicate. }
  assert (Hstring : forall self : StringLabeler.t,
             length (StringLabeler.labels self positions) = length positions).
  { intros self. rewrite string_labels_padded.
    rewrite length_app, length_map, length_take, length_replicate. lia. }
  split; [|split; [exact Hnull|split]].
  - destruct labeler as [|self|self]; simpl.
    + exact Hnull.
    + apply Hstring.
    + unfold FormatLabeler.labels.
      destruct (FormatLabeler._fmt self) as [fmt|] eqn:E.
      * pose proof (mapM_result_spec (format fmt) positions) as Hm.
        destruct (mapM (format fmt) positions) as [out|e]; [exact Hm|].
        destruct Hm as (p & Hin & Hp). exists self, fmt, p. auto.
      * apply length_map.
  - intros self. split; [apply Hstring|apply string_labels_padded].
  - reflexivity.
Qed.

(** [StringLabeler(['a','b']).labels([1,2,3])] and
    [StringLabeler(['a','b','c']).labels([1])]. *)
Lemma string_labels_examples `{PyStrings} :
  StringLabeler.labels
    (StringLabeler.__init__ (PyList [PyStr "a"; PyStr "b"]))
    [PyInt 1; PyInt 2; PyInt 3]
  = ["a"; "b"; ""]%string /\
  StringLabeler.labels
    (StringLabeler.__init__ (PyList [PyStr "a"; PyStr "b"; PyStr "c"]))
    [PyInt 1]
  = ["a"]%string.
Proof. split; reflexivity. Qed.

(** ** LogLocator *)

Lemma Qnat_S (i : nat) : (Qnat (S i) == Qnat i + 1)%Q.
Proof. apply inject_Z_succ_nat. Qed.

Lemma Qnat_0 : (Qnat 0 == 0)%Q.
Proof. reflexivity. Qed.

Lemma Qnat_nonneg (n : nat) : (0 <= Qnat n)%Q.
Proof. unfold Qnat. change 0%Q with (inject_Z 0). rewrite <- Zle_Qle. lia. Qed.

Lemma Qpower_succ (b : Q) (k : Z) : ~ (b == 0)%Q -> (b ^ (k + 1) == b ^ k * b)%Q.
Proof. intros Hb. rewrite Qpower_plus by exact Hb. rewrite Qpower_1_r. reflexivity. Qed.

(** The powers of [b >= 1] grow at least linearly. *)
Lemma power_linear_bound (b : Q) (n : nat) :
  (1 <= b)%Q -> (1 + Qnat n * (b - 1) <= b ^ Z.of_nat n)%Q.
Proof.
  intros Hb. induction n as [|n IH].
  - rewrite Qnat_0. simpl. lra.
  - rewrite Nat2Z.inj_succ. unfold Z.succ. rewrite Qpower_succ by lra.
    rewrite Qnat_S. pose proof (Qnat_nonneg n) as Hn.
    set (P := (b ^ Z.of_nat n)%Q) in *. set (N := Qnat n) in *.
    assert (Hsq : (0 <= N * (b - 1) * (b - 1))%Q).
    { repeat apply Qmult_le_0_compat; lra. }
    assert (Hmul : ((1 + N * (b - 1)) * b <= P * b)%Q).
    { apply Qmult_le_compat_r; lra. }
    assert (Heq : ((1 + N * (b - 1)) * b
                   == 1 + (N + 1) * (b - 1) + N * (b - 1) * (b - 1))%Q) by ring.
    rewrite Heq in Hmul. lra.
Qed.

(** [log_fuel b x] powers of [b > 1] pass [x]. *)
Lemma log_fuel_enough (b x : Q) :
  (1 < b)%Q -> (x < b ^ Z.of_nat (log_fuel b x))%Q.
Proof.
  intros Hb.
  apply Qlt_le_trans with (1 + Qnat (log_fuel b x) * (b - 1))%Q;
    [|apply power_linear_bound; lra].
  unfold log_fuel. rewrite Qnat_S.
  set (n := Z.to_nat (Qceiling (x / (b - 1)))).
  assert (Hx : (x == x / (b - 1) * (b - 1))%Q) by (field; lra).
  assert (Hn : (x / (b - 1) <= Qnat n)%Q).
  { apply Qle_trans with (inject_Z (Qceiling (x / (b - 1)))); [apply Qle_ceiling|].
    unfold Qnat, n. rewrite <- Zle_Qle. lia. }
  assert (Hle : (x <= Qnat n * (b - 1))%Q).
  { rewrite Hx at 1. apply Qmult_le_compat_r; lra. }
  lra.
Qed.

Lemma floor_log_loop_spec (b x : Q) (fuel : nat) :
  (1 < b)%Q ->
  forall (p : Q) (k : Z),
    (p == b ^ (k + 1))%Q ->
    (b ^ k <= x)%Q ->
    (x < b ^ (k + Z.of_nat fuel))%Q ->
    (b ^ floor_log_loop fuel b x p k <= x
     /\ x < b ^ (floor_log_loop fuel b x p k + 1))%Q.
Proof.
  intros Hb. induction fuel as [|fuel IH]; intros p k Hp Hlo Hhi; simpl.
  - replace (k + Z.of_nat 0) with k in Hhi by lia. lra.
  - destruct (Qle_bool p x) eqn:E.
    + apply Qle_bool_iff in E. apply IH.
      * rewrite Qred_correct, Hp. symmetry. apply Qpower_succ. lra.
      * rewrite <- Hp. exact E.
      * replace (k + 1 + Z.of_nat fuel) with (k + Z.of_nat (S fuel)) by lia.
        exact Hhi.
    + split; [exact Hlo|].
      rewrite <- Hp. apply Qnot_le_lt. intros H.
      apply Qle_bool_iff in H. congruence.
Qed.

Lemma ceil_log_loop_spec (b x : Q) (fuel : nat) :
  (1 < b)%Q ->
  forall (p : Q) (k : Z),
    (p == b ^ k)%Q ->
    (b ^ (k - 1) < x)%Q ->
    (x <= b ^ (k + Z.of_nat fuel))%Q ->
    (b ^ (ceil_log_loop fuel b x p k - 1) < x
     /\ x <= b ^ ceil_log_loop fuel b x p k)%Q.
Proof.
  intros Hb. induction fuel as [|fuel IH]; intros p k Hp Hlo Hhi; simpl.
  - replace (k + Z.of_nat 0) with k in Hhi by lia. split; assumption.
  - destruct (Qle_bool x p) eqn:E.
    + apply Qle_bool_iff in E. rewrite Hp in E. split; assumption.
    + apply IH.
      * rewrite Qred_correct, Hp. symmetry. apply Qpower_succ. lra.
      * replace (k + 1 - 1) with k by lia.
        rewrite <- Hp. apply Qnot_le_lt. intros H.
        apply Qle_bool_iff in H. congruence.
      * replace (k + 1 + Z.of_nat fuel) with (k + Z.of_nat (S fuel)) by lia.
        exact Hhi.
Qed.

Lemma floor_log_ge1_spec (b x : Q) :
  (1 < b)%Q -> (1 <= x)%Q ->
  (b ^ floor_log_ge1 b x <= x /\ x < b ^ (floor_log_ge1 b x + 1))%Q.
Proof.
  intros Hb Hx. unfold floor_log_ge1. apply floor_log_loop_spec.
  - exact Hb.
  - simpl. reflexivity.
  - simpl. exact Hx.
  - simpl (0 + _). apply log_fuel_enough. exact Hb.
Qed.

Lemma ceil_log_ge1_spec (b x : Q) :
  (1 < b)%Q -> (1 <= x)%Q ->
  (b ^ (ceil_log_ge1 b x - 1) < x /\ x <= b ^ ceil_log_ge1 b x)%Q.
Proof.
  intros Hb Hx. unfold ceil_log_ge1. apply ceil_log_loop_spec.
  - exact Hb.
  - simpl. reflexivity.
  - change (b ^ (0 - 1))%Q with (/ b)%Q.
    apply Qlt_le_trans with 1%Q; [|exact Hx].
    apply Qlt_shift_inv_r; lra.
  - simpl (0 + _). apply Qlt_le_weak. apply log_fuel_enough. exact Hb.
Qed.

Lemma Qinv_le_contravar (a b : Q) : (0 < a)%Q -> (a <= b)%Q -> (/ b <= / a)%Q.
Proof.
  intros Ha Hab. apply Qle_shift_inv_l; [exact Ha|].
  rewrite Qmult_comm. apply Qle_shift_div_r; lra.
Qed.

(** [floor_log b x] is the floor of [log_b x]: the exponent [k] with
    [b ^ k <= x < b ^ (k + 1)]. *)
Lemma floor_log_spec (b x : Q) :
  (1 < b)%Q -> (0 < x)%Q ->
  (b ^ floor_log b x <= x /\ x < b ^ (floor_log b x + 1))%Q.
Proof.
  intros Hb Hx. unfold floor_log.
  assert (E : Qltb 1 b = true) by (apply Qltb_true; exact Hb). rewrite E.
  unfold floor_log_gt1. destruct (Qle_bool 1 x) eqn:E1.
  - apply Qle_bool_iff in E1. apply floor_log_ge1_spec; assumption.
  - assert (Hx1 : (x < 1)%Q).
    { apply Qnot_le_lt. intros H. apply Qle_bool_iff in H. congruence. }
    assert (Hy : (1 <= / x)%Q) by (apply Qle_shift_inv_l; lra).
    destruct (ceil_log_ge1_spec b (/ x) Hb Hy) as (Hlo & Hhi).
    set (c := ceil_log_ge1 b (/ x)) in *.
    assert (Hpos : forall k, (0 < b ^ k)%Q) by (intros k; apply Qpower_0_lt; lra).
    split.
    + rewrite Qpower_opp. apply Qle_trans with (/ / x)%Q.
      * apply Qinv_le_contravar; [apply Qinv_lt_0_compat; lra|exact Hhi].
      * rewrite Qinv_involutive. apply Qle_refl.
    + replace (- c + 1) with (- (c - 1)) by lia.
      rewrite Qpower_opp. apply Qle_lt_trans with (/ / x)%Q.
      * rewrite Qinv_involutive. apply Qle_refl.
      * apply -> Qinv_lt_contravar;
          first [exact Hlo | apply Hpos | apply Qinv_lt_0_compat; lra].
Qed.

(** [ceil_log b x] is the ceiling of [log_b x]: the exponent [k] with
    [b ^ (k - 1) < x <= b ^ k]. *)
Lemma ceil_log_spec (b x : Q) :
  (1 < b)%Q -> (0 < x)%Q ->
  (b ^ (ceil_log b x - 1) < x /\ x <= b ^ ceil_log b x)%Q.
Proof.
  intros Hb Hx. unfold ceil_log.
  assert (E : Qltb 1 b = true) by (apply Qltb_true; exact Hb). rewrite E.
  unfold ceil_log_gt1. destruct (Qle_bool 1 x) eqn:E1.
  - apply Qle_bool_iff in E1. apply ceil_log_ge1_spec; assumption.
  - assert (Hx1 : (x < 1)%Q).
    { apply Qnot_le_lt. intros H. apply Qle_bool_iff in H. congruence. }
    assert (Hy : (1 <= / x)%Q) by (apply Qle_shift_inv_l; lra).
    destruct (floor_log_ge1_spec b (/ x) Hb Hy) as (Hlo & Hhi).
    set (c := floor_log_ge1 b (/ x)) in *.
    assert (Hpos : forall k, (0 < b ^ k)%Q) by (intros k; apply Qpower_0_lt; lra).
    split.
    + replace (- c - 1) with (- (c + 1)) by lia.
      rewrite Qpower_opp. apply Qlt_le_trans with (/ / x)%Q.
      * apply -> Qinv_lt_contravar;
          first [exact Hhi | apply Hpos | apply Qinv_lt_0_compat; lra].
      * rewrite Qinv_involutive. apply Qle_refl.
    + rewrite Qpower_opp. apply Qle_trans with (/ / x)%Q.
      * rewrite Qinv_involutive. apply Qle_refl.
      * apply Qinv_le_contravar; [apply Hpos|exact Hlo].
Qed.

Lemma mapM_result_ok {A B : Type} (f : A -> result B) (l : list A) (out : list B) :
  Forall2 (fun x y => f x = Ok y) l out -> mapM f l = Ok out.
Proof.
  induction 1 as [|x y l out Hx Hall IH]; simpl; [reflexivity|].
  rewrite Hx. simpl. rewrite IH. reflexivity.
Qed.

(** C5.  The exponents are the floor and the ceiling of a double quotient,
    not of the logarithm.  For [start = 1000] and base 10 the C library
    gives the logarithms 6.907755278982137 and 2.302585092994046, whose
    quotient is the double 2.9999999999999996: the first exponent is 2,
    not [floor (log_10 1000) = 3], and
    [LogLocator(base=10, subdivisions=[1]).locations(1000, 10000)] is
    [100, 1000, 10000], with a tick below the decade of [start]. *)
Theorem C5_log_first_exponent_on_doubles :
  Binary64.LogLocator.locations
    {| LogLocator._base := NInt 10; LogLocator._subdivisions := [PyInt 1] |}
    Binary64.log_1000 Binary64.log_10000 Binary64.log_10
  = Ok [PyInt 100; PyInt 1000; PyInt 10000]
  /\ (x ← Binary64.math_log Binary64.log_1000 Binary64.log_10;
      Binary64.int_floor x) = Ok 2
  /\ (x ← Binary64.math_log Binary64.log_10000 Binary64.log_10;
      Binary64.int_ceil x) = Ok 4
  /\ floor_log 10 1000 = 3
  /\ 10 ^ 3 <= 1000 < 10 ^ (3 + 1).
Proof.
  split; [vm_compute; reflexivity|].
  split; [vm_compute; reflexivity|].
  split; [vm_compute; reflexivity|].
  split; [vm_compute; reflexivity|].
  lia.
Qed.

(** * Further properties *)

(** ** LinearLocator: every count *)

(** X1. [LinearLocator.locations] raises only when the number of ticks
    [n] is 1, and then a [ZeroDivisionError]; for [n <= 0] the loop does
    not run and the list is [end] alone; for [n >= 2] the list has [n]
    values, from [start] to [end]. *)
Theorem X1_linear_locations_every_count :
  forall (self : LinearLocator.t) (start end_ : num) (axisType : string),
    let n := if String.eqb axisType "minor"
             then LinearLocator._num self + 2 else LinearLocator._num self in
    (n = 1 ->
     LinearLocator.locations self start end_ axisType = Raise ZeroDivisionError) /\
    (n <= 0 ->
     LinearLocator.locations self start end_ axisType = Ok [end_]) /\
    (2 <= n ->
     exists locs,
       LinearLocator.locations self start end_ axisType = Ok (start :: locs) /\
       length (start :: locs) = Z.to_nat n /\
       last (start :: locs) = Some end_).
Proof.
  intros self start end_ axisType n. split; [|split].
  - intros Hn. unfold LinearLocator.locations. fold n. rewrite Hn.
    reflexivity.
  - intros Hn.
    destruct (linear_delta start end_ n ltac:(lia)) as (delta & Hdiv & _).
    unfold LinearLocator.locations. fold n. rewrite Hdiv. simpl.
    replace (Z.to_nat (n - 1)) with 0%nat by lia. reflexivity.
  - intros Hn.
    destruct (linear_delta start end_ n ltac:(lia)) as (delta & Hdiv & _).
    destruct (linear_loop_spec (Z.to_nat (n - 1)) delta start [])
      as (steps & Hloop & Hlen & Hnth).
    destruct (Hnth 0%nat ltac:(lia)) as (x & Hx & Hx0 & _).
    destruct steps as [|x' steps]; [discriminate|].
    simpl in Hx. injection Hx as ->. rewrite (Hx0 eq_refl) in *.
    exists (steps ++ [end_]). split; [|split].
    + unfold LinearLocator.locations. fold n. rewrite Hdiv. simpl.
      rewrite Hloop. reflexivity.
    + simpl in *. rewrite length_app. simpl. lia.
    + change (start :: steps ++ [end_]) with ((start :: steps) ++ [end_]).
      apply last_snoc.
Qed.

Lemma X1_linear_locations_every_count_witness :
  LinearLocator.locations (LinearLocator.__init__ (PyInt (-1))) (NInt 0) (NInt 100) "minor"
  = Raise ZeroDivisionError /\
  LinearLocator.locations (LinearLocator.__init__ (PyInt 0)) (NInt 0) (NInt 100) "major"
  = Ok [NInt 100].
Proof.
  split.
  - apply (proj1 (X1_linear_locations_every_count
                    (LinearLocator.__init__ (PyInt (-1))) (NInt 0) (NInt 100)
                    "minor"%string)).
    reflexivity.
  - apply (proj1 (proj2 (X1_linear_locations_every_count
                           (LinearLocator.__init__ (PyInt 0)) (NInt 0) (NInt 100)
                           "major"%string))).
    simpl. lia.
Defined.

(** ** setValues *)

(** X3. [setValues] looks at the keys of its own class and at no other:
    a key that is not one of them changes nothing of what the call does. *)
Theorem X3_setValues_ignores_other_keys :
  forall (k : string) (v : pyval) (kwargs : gmap string pyval),
    (forall self, k <> "num"%string ->
       LinearLocator.setValues (<[k := v]> kwargs) self
       = LinearLocator.setValues kwargs self) /\
    (forall self, k <> "locations"%string -> k <> "nTicks"%string ->
       FixedLocator.setValues (<[k := v]> kwargs) self
       = FixedLocator.setValues kwargs self) /\
    (forall self, k <> "base"%string -> k <> "anchor"%string ->
       SpacedLocator.setValues (<[k := v]> kwargs) self
       = SpacedLocator.setValues kwargs self) /\
    (forall self, k <> "base"%string -> k <> "subdivisions"%string ->
       LogLocator.setValues (<[k := v]> kwargs) self
       = LogLocator.setValues kwargs self).
Proof.
  intros k v kwargs. repeat split; intros self; intros.
  - unfold LinearLocator.setValues. rewrite lookup_insert_ne by assumption.
    reflexivity.
  - unfold FixedLocator.setValues. rewrite !lookup_insert_ne by assumption.
    reflexivity.
  - unfold SpacedLocator.setValues. rewrite !lookup_insert_ne by assumption.
    reflexivity.
  - unfold LogLocator.setValues. rewrite !lookup_insert_ne by assumption.
    reflexivity.
Qed.

Lemma X3_setValues_ignores_other_keys_witness :
  SpacedLocator.setValues (<["num"%string := PyInt 7]> {[ "base"%string := PyInt 2 ]})
    (SpacedLocator.__init__ (PyInt 5) (PyInt 3))
  = SpacedLocator.setValues {[ "base"%string := PyInt 2 ]}
      (SpacedLocator.__init__ (PyInt 5) (PyInt 3)).
Proof.
  apply (proj1 (proj2 (proj2 (X3_setValues_ignores_other_keys
                                "num"%string (PyInt 7) {[ "base"%string := PyInt 2 ]}))));
    discriminate.
Defined.

(** X4. [setValues] without any key of its class leaves the locator as
    it is: [None] and [''], which stand for the missing keys, fail every
    setter's check. *)
Theorem X4_setValues_without_keys :
  forall (kwargs : gmap string pyval),
    (forall self, kwargs !! "num"%string = None ->
       LinearLocator.setValues kwargs self = self) /\
    (forall self, kwargs !! "locations"%string = None ->
       kwargs !! "nTicks"%string = None ->
       FixedLocator.setValues kwargs self = self) /\
    (forall self, kwargs !! "base"%string = None ->
       kwargs !! "anchor"%string = None ->
       SpacedLocator.setValues kwargs self = self) /\
    (forall self, kwargs !! "base"%string = None ->
       kwargs !! "subdivisions"%string = None ->
       LogLocator.setValues kwargs self = self).
Proof.
  intros kwargs. repeat split; intros self; intros.
  - unfold LinearLocator.setValues.
    repeat match goal with H : _ !! _ = None |- _ => rewrite H; clear H end.
    reflexivity.
  - unfold FixedLocator.setValues.
    repeat match goal with H : _ !! _ = None |- _ => rewrite H; clear H end.
    reflexivity.
  - unfold SpacedLocator.setValues.
    repeat match goal with H : _ !! _ = None |- _ => rewrite H; clear H end.
    reflexivity.
  - unfold LogLocator.setValues.
    repeat match goal with H : _ !! _ = None |- _ => rewrite H; clear H end.
    reflexivity.
Qed.

Lemma X4_setValues_without_keys_witness :
  LogLocator.setValues {[ "num"%string := PyInt 7 ]}
    (LogLocator.__init__ (PyInt 2) (PyList [PyInt 1; PyInt 3]))
  = LogLocator.__init__ (PyInt 2) (PyList [PyInt 1; PyInt 3]).
Proof.
  apply (proj2 (proj2 (proj2 (X4_setValues_without_keys {[ "num"%string := PyInt 7 ]}))));
    vm_compute; reflexivity.
Defined.

(** X5. [setValues] hands each key of its class to the setter of that
    name: an integer [num] becomes the count; [locations] and [nTicks] of
    a FixedLocator are set one without regard to the other, [nTicks=None]
    takes the limit away and an integer below 2 gives the limit 2; a
    LogLocator takes [subdivisions] as well as [base]. *)
Theorem X5_setValues_applies_keys :
  forall (kwargs : gmap string pyval),
    (forall self v n, kwargs !! "num"%string = Some v -> as_int v = Some n ->
       LinearLocator._num (LinearLocator.setValues kwargs self) = n) /\
    (forall self, kwargs !! "nTicks"%string = None ->
       FixedLocator._nTicks (FixedLocator.setValues kwargs self)
       = FixedLocator._nTicks self) /\
    (forall self, kwargs !! "nTicks"%string = Some PyNone ->
       FixedLocator._nTicks (FixedLocator.setValues kwargs self)
       = FixedLocator.IsNone) /\
    (forall self v k, kwargs !! "nTicks"%string = Some v -> as_int v = Some k ->
       FixedLocator._nTicks (FixedLocator.setValues kwargs self)
       = FixedLocator.IsInt (Z.max 2 k)) /\
    (forall self v l, kwargs !! "locations"%string = Some v -> as_seq v = Some l ->
       FixedLocator._locations (FixedLocator.setValues kwargs self) = l) /\
    (forall self, kwargs !! "locations"%string = None ->
       FixedLocator._locations (FixedLocator.setValues kwargs self)
       = FixedLocator._locations self) /\
    (forall self v b, kwargs !! "base"%string = Some v -> as_num v = Some b ->
       LogLocator._base (LogLocator.setValues kwargs self) = b) /\
    (forall self v l, kwargs !! "subdivisions"%string = Some v -> as_seq v = Some l ->
       LogLocator._subdivisions (LogLocator.setValues kwargs self) = l).
Proof.
  intros kwargs.
  assert (Hloc : forall v self,
             FixedLocator._locations (FixedLocator.setNTicks v self)
             = FixedLocator._locations self).
  { intros v self. unfold FixedLocator.setNTicks.
    destruct v; simpl; try reflexivity;
      match goal with |- context [?a <? 2] => destruct (a <? 2) end; reflexivity. }
  assert (Hnt : forall v k self, as_int v = Some k ->
             FixedLocator._nTicks (FixedLocator.setNTicks v self)
             = FixedLocator.IsInt (Z.max 2 k)).
  { intros v k self H. unfold FixedLocator.setNTicks.
    destruct v; simpl in H; try discriminate; injection H as <-; simpl;
      match goal with |- context [?a <? 2] => destruct (Z.ltb_spec a 2) end;
      simpl; f_equal; lia. }
  repeat split.
  - intros self v n Hk Hv. unfold LinearLocator.setValues, LinearLocator.setNum.
    rewrite Hk. simpl. rewrite Hv. reflexivity.
  - intros self Hk. unfold FixedLocator.setValues. rewrite Hk.
    destruct (kwargs !! "locations"%string); [apply fixed_setLocations_nTicks|reflexivity].
  - intros self Hk. unfold FixedLocator.setValues. rewrite Hk. reflexivity.
  - intros self v k Hk Hv. unfold FixedLocator.setValues. rewrite Hk.
    apply Hnt. exact Hv.
  - intros self v l Hk Hv. unfold FixedLocator.setValues. rewrite Hk.
    assert (E : FixedLocator._locations (FixedLocator.setLocations v self) = l).
    { unfold FixedLocator.setLocations. rewrite Hv. reflexivity. }
    destruct (kwargs !! "nTicks"%string); [rewrite Hloc|]; exact E.
  - intros self Hk. unfold FixedLocator.setValues. rewrite Hk.
    destruct (kwargs !! "nTicks"%string); [apply Hloc|reflexivity].
  - intros self v b Hk Hv. unfold LogLocator.setValues. rewrite Hk. simpl.
    unfold LogLocator.setSubdivisions, LogLocator.setBase. rewrite Hv.
    destruct (as_seq _); reflexivity.
  - intros self v l Hk Hv. unfold LogLocator.setValues. rewrite Hk. simpl.
    unfold LogLocator.setSubdivisions. rewrite Hv. reflexivity.
Qed.

Lemma X5_setValues_applies_keys_witness :
  FixedLocator._nTicks
    (FixedLocator.setValues {[ "nTicks"%string := PyInt 0 ]}
       (FixedLocator.__init__ (PyList [PyInt 1; PyInt 2; PyInt 3]) PyNone))
  = FixedLocator.IsInt (Z.max 2 0).
Proof.
  apply (proj1 (proj2 (proj2 (proj2 (X5_setValues_applies_keys
                                       {[ "nTicks"%string := PyInt 0 ]}))))
           _ (PyInt 0) 0).
  - vm_compute. reflexivity.
  - reflexivity.
Defined.

(** ** What the setters keep, and what it buys *)

(** X6. Whatever constructors, setters, [setValues] and [locations] calls
    a program makes, a FixedLocator never holds a tick limit below 2 and a
    SpacedLocator never holds a base that is not positive. *)
Theorem X6_setters_keep_limit_and_base :
  (forall (self : FixedLocator.t) (k : Z),
      reachable (AFixedLocator self) ->
      FixedLocator._nTicks self = FixedLocator.IsInt k -> 2 <= k) /\
  (forall self : SpacedLocator.t,
      reachable (ASpacedLocator self) ->
      (0 < Qof (SpacedLocator._base self))%Q).
Proof.
  split.
  - intros self k Hreach E. apply reachable_configured in Hreach.
    simpl in Hreach. rewrite E in Hreach. exact Hreach.
  - intros self Hreach. exact (reachable_configured _ Hreach).
Qed.

Lemma X6_setters_keep_limit_and_base_witness :
  2 <= 2 /\
  (0 < Qof (SpacedLocator._base
              (SpacedLocator.setBase (PyInt (-4))
                 (SpacedLocator.__init__ (PyFloat (5 # 2)) PyNone))))%Q.
Proof.
  split.
  - apply (proj1 X6_setters_keep_limit_and_base
             (FixedLocator.setNTicks (PyInt (-7))
                (FixedLocator.__init__ (PyList []) PyNone)) 2).
    + apply reach_fixed_setNTicks. apply reach_fixed_init.
    + reflexivity.
  - apply (proj2 X6_setters_keep_limit_and_base).
    apply reach_spaced_setBase. apply reach_spaced_init.
Defined.





(** ** SpacedLocator: integer ticks *)

(** X9.  For an integer base [b > 0] and integer anchor, [start] and [end]
    the list an anchored SpacedLocator returns is one row of evenly spaced
    integers through the anchor: [first + p * b] for [p] from 0 on, with
    [first = a - j * b <= start] for the [j] steps down and the last value
    [>= end]; it has [j + k + 2] values, for the [k] steps up from
    [a + b]. *)
Theorem X9_spaced_integer_ticks_on_one_grid :
  forall (b a s e : Z) (axisType : string) (fuel : nat),
    0 < b -> (steps s a b < fuel)%nat -> (steps (a + b) e b < fuel)%nat ->
    let first := a - Z.of_nat (steps s a b) * b in
    let n := (steps s a b + steps (a + b) e b + 2)%nat in
    Binary64.SpacedLocator.locations fuel
      {| Binary64.SpacedLocator._base := Binary64.PInt b;
         Binary64.SpacedLocator._anchor := Some (Binary64.PInt a) |}
      (Binary64.PInt s) (Binary64.PInt e) axisType
    = Some (Ok (grid first b n))
    /\ first <= s
    /\ e <= first + (Z.of_nat n - 1) * b.
Proof.
  intros b a s e axisType fuel Hb Hf1 Hf2 first n.
  destruct (steps_down_spec s a b Hb) as [_ H2].
  destruct (steps_spec (a + b) e b Hb) as [_ H4].
  split; [|split; [exact H2|unfold first, n; nia]].
  rewrite spaced_ints_anchored by assumption.
  rewrite grid_rev. fold first.
  replace (grid (a + b) b (S (steps (a + b) e b)))
    with (grid (first + Z.of_nat (S (steps s a b)) * b) b
            (S (steps (a + b) e b)))
    by (f_equal; unfold first; lia).
  rewrite grid_app. do 3 f_equal. unfold n. lia.
Qed.

Lemma X9_spaced_integer_ticks_on_one_grid_witness :
  Binary64.SpacedLocator.locations 9
    {| Binary64.SpacedLocator._base := Binary64.PInt 3;
       Binary64.SpacedLocator._anchor := Some (Binary64.PInt 20) |}
    (Binary64.PInt 0) (Binary64.PInt 10) "major"
  = Some (Ok (grid (-1) 3 9)).
Proof.
  destruct (X9_spaced_integer_ticks_on_one_grid 3 20 0 10 "major"%string 9%nat)
    as [E _]; [lia | vm_compute; lia | vm_compute; lia |].
  exact E.
Defined.

(** ** FixedLocator: the subsampled list *)




Lemma fixed_setNTicks_locations v self :
  FixedLocator._locations (FixedLocator.setNTicks v self)
  = FixedLocator._locations self.
Proof.
  unfold FixedLocator.setNTicks.
  destruct v; simpl; try reflexivity;
    match goal with |- context [?a <? 2] => destruct (a <? 2) end; reflexivity.
Qed.

Lemma fixed_setNTicks_int v k self :
  as_int v = Some k ->
  FixedLocator._nTicks (FixedLocator.setNTicks v self)
  = FixedLocator.IsInt (Z.max 2 k).
Proof.
  intros H. unfold FixedLocator.setNTicks.
  destruct v; simpl in H; try discriminate; injection H as <-; simpl;
    match goal with |- context [?a <? 2] => destruct (Z.ltb_spec a 2) end;
    simpl; f_equal; lia.
Qed.

(** X12. A tick limit of 2 or less, zero and negative ones too, leaves
    two ticks of three or more positions: the first position and the last. *)
Theorem X12_fixed_two_ticks_at_least :
  forall (self : FixedLocator.t) (v : pyval) (k : Z)
         (start end_ : num) (axisType : string),
    as_int v = Some k -> k <= 2 ->
    (3 <= length (FixedLocator._locations self))%nat ->
    exists first_ last_,
      head (FixedLocator._locations self) = Some first_ /\
      last (FixedLocator._locations self) = Some last_ /\
      snd (FixedLocator.locations (FixedLocator.setNTicks v self) start end_ axisType)
      = Ok [first_; last_].
Proof.
  intros self v k start end_ axisType Hv Hk Hlen.
  pose proof (fixed_setNTicks_int v k self Hv) as E.
  replace (Z.max 2 k) with 2 in E by lia.
  pose proof (fixed_setNTicks_locations v self) as Hpos.
  destruct (fixed_subsample_spec (FixedLocator.setNTicks v self)
              start end_ axisType 2 E ltac:(lia))
    as (picks & last_ & Hloc & Hplen & Hlast & Hpick).
  { rewrite Hpos. lia. }
  rewrite Hpos in Hlast, Hpick.
  destruct (Hpick 0%nat ltac:(simpl; lia)) as (H0 & _).
  assert (R0 : forall len, round_index 0 len 2 = 0).
  { intros len. unfold round_index. rewrite Qmult_0_l. reflexivity. }
  change (Z.of_nat 0) with 0 in H0. rewrite R0 in H0.
  change (Z.to_nat 0) with 0%nat in H0.
  destruct picks as [|x [|x' picks]]; simpl in Hplen; try discriminate.
  destruct (FixedLocator._locations self) as [|first_ rest] eqn:El;
    [simpl in Hlen; lia|].
  simpl in H0. injection H0 as ->.
  exists first_, last_. split; [reflexivity|]. split; [exact Hlast|].
  rewrite Hloc. reflexivity.
Qed.

Lemma X12_fixed_two_ticks_at_least_witness :
  exists first_ last_,
    head [PyInt 4; PyInt 8; PyInt 15; PyInt 16] = Some first_ /\
    last [PyInt 4; PyInt 8; PyInt 15; PyInt 16] = Some last_ /\
    snd (FixedLocator.locations
           (FixedLocator.setNTicks (PyInt (-3))
              (FixedLocator.__init__
                 (PyList [PyInt 4; PyInt 8; PyInt 15; PyInt 16]) PyNone))
           (NInt 0) (NInt 1) "major")
    = Ok [first_; last_].
Proof.
  apply (X12_fixed_two_ticks_at_least
           (FixedLocator.__init__
              (PyList [PyInt 4; PyInt 8; PyInt 15; PyInt 16]) PyNone)
           (PyInt (-3)) (-3) (NInt 0) (NInt 1) "major"%string).
  - reflexivity.
  - lia.
  - simpl. lia.
Defined.

(** ** LogLocator: errors, cover and count *)

(** X13. Only a [ValueError] of [math.log] is caught.  With base 1 the
    logarithm divides by zero, and [locations] raises [ZeroDivisionError]
    as soon as [start] or [end] is positive.  With a base at or below 0, or
    with [start] and [end] both at or below 0, both exponents fall back to
    0 and the list is the one decade of exponent 0. *)
Theorem X13_log_locations_without_logarithm :
  forall (self : LogLocator.t) (start end_ : num) (axisType : string),
    ((Qof (LogLocator._base self) == 1)%Q ->
     (0 < Qof start)%Q \/ (0 < Qof end_)%Q ->
     LogLocator.locations self start end_ axisType = Raise ZeroDivisionError) /\
    ((Qof (LogLocator._base self) <= 0)%Q
     \/ ((Qof start <= 0)%Q /\ (Qof end_ <= 0)%Q) ->
     LogLocator.locations self start end_ axisType
     = LogLocator.decade (LogLocator._base self) (LogLocator._subdivisions self) 0).
Proof.
  intros self start end_ axisType.
  assert (Hone : forall x, (Qof (LogLocator._base self) == 1)%Q ->
             math_log_defined x (LogLocator._base self)
             = if Qle_bool (Qof x) 0 then Raise ValueError
               else Raise ZeroDivisionError).
  { intros x Hb. unfold math_log_defined.
    destruct (Qle_bool (Qof x) 0); [reflexivity|].
    assert (E0 : Qle_bool (Qof (LogLocator._base self)) 0 = false) by Qtest_false.
    assert (E1 : Qeq_bool (Qof (LogLocator._base self)) 1 = true)
      by (apply Qeq_bool_iff; exact Hb).
    rewrite E0, E1. reflexivity. }
  assert (Hval : forall x, (Qof (LogLocator._base self) <= 0)%Q \/ (Qof x <= 0)%Q ->
             math_log_defined x (LogLocator._base self) = Raise ValueError).
  { intros x H. unfold math_log_defined.
    destruct (Qle_bool (Qof x) 0) eqn:Ex; [reflexivity|].
    destruct H as [H|H].
    - apply Qle_bool_iff in H. rewrite H. reflexivity.
    - apply Qle_bool_iff in H. congruence. }
  split.
  - intros Hb Hpos. unfold LogLocator.locations, math_floor_log, math_ceil_log.
    rewrite !(Hone _ Hb).
    destruct (Qle_bool (Qof start) 0) eqn:Es; [|reflexivity]. simpl.
    destruct (Qle_bool (Qof end_) 0) eqn:Ee; [|reflexivity].
    apply Qle_bool_iff in Es, Ee. destruct Hpos; lra.
  - intros H. unfold LogLocator.locations, math_floor_log, math_ceil_log.
    rewrite (Hval start), (Hval end_) by (destruct H as [H|[H1 H2]]; auto).
    simpl. change (Z.of_nat 0 + 0) with 0.
    destruct (LogLocator.decade _ _ 0); reflexivity.
Qed.

Lemma X13_log_locations_without_logarithm_witness :
  LogLocator.locations (LogLocator.__init__ (PyInt 1) (PyList [PyInt 1; PyInt 5]))
    (NInt 5) (NInt 7) "major" = Raise ZeroDivisionError /\
  LogLocator.locations (LogLocator.__init__ (PyInt (-2)) (PyList [PyInt 1; PyInt 5]))
    (NInt 5) (NInt 7) "major"
  = LogLocator.decade (NInt (-2)) [PyInt 1; PyInt 5] 0.
Proof.
  split.
  - apply (proj1 (X13_log_locations_without_logarithm
                    (LogLocator.__init__ (PyInt 1) (PyList [PyInt 1; PyInt 5]))
                    (NInt 5) (NInt 7) "major"%string)).
    + reflexivity.
    + left. reflexivity.
  - apply (proj2 (X13_log_locations_without_logarithm
                    (LogLocator.__init__ (PyInt (-2)) (PyList [PyInt 1; PyInt 5]))
                    (NInt 5) (NInt 7) "major"%string)).
    left. discriminate.
Defined.

(** ** Labelers: which label goes where *)

(** X16. A StringLabeler matches labels to positions by place, never by
    value: the [i]-th string is [str] of the [i]-th label, or the empty
    string past the labels, so positions of the same number get the same
    strings; and labels that are strings, set for as many positions as
    there are labels, come back as they were set. *)
Theorem X16_string_labels_by_place :
  forall (builtins : PyStrings) (self : StringLabeler.t) (positions : list pyval),
    (forall i : nat, (i < length positions)%nat ->
       StringLabeler.labels self positions !! i
       = Some (match StringLabeler._labels self !! i with
               | Some v => str v
               | None => EmptyString
               end)) /\
    (forall positions' : list pyval,
       length positions' = length positions ->
       StringLabeler.labels self positions' = StringLabeler.labels self positions) /\
    (forall strings : list string,
       length strings = length positions ->
       StringLabeler.labels
         (StringLabeler.setLabels (PyList (map PyStr strings)) self) positions
       = strings).
Proof.
  intros builtins self positions. split; [|split].
  - intros i Hi. rewrite string_labels_padded.
    set (ls := StringLabeler._labels self).
    destruct (ls !! i) as [v|] eqn:E.
    + pose proof (lookup_lt_Some _ _ _ E) as Hlt.
      rewrite lookup_app_l by (rewrite length_map, length_take; lia).
      rewrite list_lookup_fmap, lookup_take_lt by lia. rewrite E. reflexivity.
    + apply lookup_ge_None in E.
      rewrite lookup_app_r by (rewrite length_map, length_take; lia).
      rewrite length_map, length_take.
      apply lookup_replicate_2. lia.
  - intros positions' Hlen. rewrite !string_labels_padded, Hlen. reflexivity.
  - intros strings Hlen. rewrite string_labels_padded. simpl.
    rewrite length_map, <- Hlen, Nat.sub_diag. simpl. rewrite app_nil_r.
    rewrite take_ge by (rewrite length_map; lia).
    clear Hlen. induction strings as [|s strings IH]; simpl; [reflexivity|].
    f_equal. exact IH.
Qed.

Lemma mapM_result_Forall2 {A B : Type} (f : A -> result B) (l : list A) (out : list B) :
  mapM f l = Ok out <-> Forall2 (fun x y => f x = Ok y) l out.
Proof.
  split; [|apply mapM_result_ok].
  revert out. induction l as [|x l IH]; intros out H; simpl in H.
  - injection H as <-. constructor.
  - destruct (f x) as [y|e] eqn:Hx; simpl in H; [|discriminate].
    destruct (mapM f l) as [ys|e]; simpl in H; [|discriminate].
    injection H as <-. constructor; [exact Hx|apply IH; reflexivity].
Qed.

Lemma mapM_result_first_failure {A B : Type} (f : A -> result B)
      (pre : list A) (x : A) (post : list A) (e : exn) :
  Forall (fun y => exists s, f y = Ok s) pre ->
  f x = Raise e ->
  mapM f (pre ++ x :: post) = Raise e.
Proof.
  intros Hpre Hx. induction Hpre as [|y pre (s & Hy) _ IH]; simpl.
  - rewrite Hx. reflexivity.
  - rewrite Hy. simpl. rewrite IH. reflexivity.
Qed.

(** X17. A FormatLabeler with a format returns the formatted positions in
    their order exactly when the format applies to every position; when
    it does not, the call raises what the first position that fails
    raises. *)
Theorem X17_format_labels_in_order :
  forall (builtins : PyStrings) (self : FormatLabeler.t) (fmt : string)
         (positions : list pyval),
    FormatLabeler._fmt self = Some fmt ->
    (forall strings,
        FormatLabeler.labels self positions = Ok strings <->
        Forall2 (fun p s => format fmt p = Ok s) positions strings) /\
    (forall before p after e,
        positions = before ++ p :: after ->
        Forall (fun q => exists s, format fmt q = Ok s) before ->
        format fmt p = Raise e ->
        FormatLabeler.labels self positions = Raise e).
Proof.
  intros builtins self fmt positions E. unfold FormatLabeler.labels. rewrite E.
  split.
  - intros strings. apply mapM_result_Forall2.
  - intros before p after e -> Hbefore Hp.
    apply mapM_result_first_failure; assumption.
Qed.

Lemma X16_string_labels_by_place_witness :
  @StringLabeler.labels sample_strings
    (StringLabeler.__init__ (PyList [PyStr "a"; PyInt 7]))
    [PyInt 1; PyInt 2; PyInt 3] !! 2%nat
  = Some EmptyString /\
  @StringLabeler.labels sample_strings
    (StringLabeler.setLabels (PyList (map PyStr ["lo"; "hi"]%string))
       (StringLabeler.__init__ PyNone))
    [PyFloat (1 # 2); PyInt 9]
  = ["lo"; "hi"]%string.
Proof.
  split.
  - apply (proj1 (X16_string_labels_by_place sample_strings
                    (StringLabeler.__init__ (PyList [PyStr "a"; PyInt 7]))
                    [PyInt 1; PyInt 2; PyInt 3]) 2%nat).
    simpl. lia.
  - apply (proj2 (proj2 (X16_string_labels_by_place sample_strings
                           (StringLabeler.__init__ PyNone)
                           [PyFloat (1 # 2); PyInt 9]))).
    reflexivity.
Defined.

Lemma X17_format_labels_in_order_witness :
  (forall strings,
      @FormatLabeler.labels sample_strings (FormatLabeler.__init__ (PyStr "x="))
        [PyInt 1; PyNone; PyInt 3] = Ok strings <->
      Forall2 (fun p s => @format sample_strings "x=" p = Ok s)
              [PyInt 1; PyNone; PyInt 3] strings) /\
  (forall before p after e,
      [PyInt 1; PyNone; PyInt 3] = before ++ p :: after ->
      Forall (fun q => exists s, @format sample_strings "x=" q = Ok s) before ->
      @format sample_strings "x=" p = Raise e ->
      @FormatLabeler.labels sample_strings (FormatLabeler.__init__ (PyStr "x="))
        [PyInt 1; PyNone; PyInt 3] = Raise e).
Proof.
  apply (X17_format_labels_in_order sample_strings
           (FormatLabeler.__init__ (PyStr "x=")) "x="%string
           [PyInt 1; PyNone; PyInt 3]).
  reflexivity.
Defined.

(** ** Constructors *)

(** X21. A constructor given an argument of the wrong type keeps the
    default it set beforehand: count 5, base 1.0 and no anchor, base 10
    and subdivisions [[1]], no labels, no format.  The constructor of
    FixedLocator sets no default for the tick limit: with a limit that is
    neither [None] nor an integer, [locations] raises [AttributeError], on
    every call until [setNTicks] is given one that is. *)
Theorem X21_constructors_and_defaults :
  (forall v, as_int v = None ->
     LinearLocator.__init__ v = {| LinearLocator._num := 5 |}) /\
  (forall b a, as_num b = None -> as_num a = None ->
     SpacedLocator.__init__ b a
     = {| SpacedLocator._base := NFloat 1; SpacedLocator._anchor := None |}) /\
  (forall b s, as_num b = None -> as_seq s = None ->
     LogLocator.__init__ b s
     = {| LogLocator._base := NInt 10; LogLocator._subdivisions := [PyInt 1] |}) /\
  (forall v, as_seq v = None ->
     StringLabeler.__init__ v = {| StringLabeler._labels := [] |}) /\
  (forall v, (forall s, v <> PyStr s) ->
     FormatLabeler.__init__ v = {| FormatLabeler._fmt := None |}) /\
  (forall locations v start end_ axisType,
     v <> PyNone -> as_int v = None ->
     FixedLocator.locations (FixedLocator.__init__ locations v) start end_ axisType
     = (FixedLocator.__init__ locations v, Raise AttributeError) /\
     forall kwargs w,
       kwargs !! "nTicks"%string = None ->
       snd (FixedLocator.locations
              (FixedLocator.setValues kwargs
                 (FixedLocator.setLocations w (FixedLocator.__init__ locations v)))
              start end_ axisType)
       = Raise AttributeError).
Proof.
  split; [|split; [|split; [|split; [|split]]]].
  - intros v H. unfold LinearLocator.__init__, LinearLocator.setNum.
    rewrite H. reflexivity.
  - intros b a Hb Ha. unfold SpacedLocator.__init__, SpacedLocator.setBase.
    rewrite Hb. unfold SpacedLocator.setAnchor. rewrite Ha.
    destruct a; reflexivity.
  - intros b s Hb Hs. unfold LogLocator.__init__, LogLocator.setBase.
    rewrite Hb. unfold LogLocator.setSubdivisions. rewrite Hs. reflexivity.
  - intros v H. unfold StringLabeler.__init__, StringLabeler.setLabels.
    rewrite H. reflexivity.
  - intros v Hs. unfold FormatLabeler.__init__, FormatLabeler.setFormatter.
    destruct v; try reflexivity.
    exfalso. eapply Hs. reflexivity.
  - intros locations v start end_ axisType Hn Hv.
    assert (E : forall self, FixedLocator.setNTicks v self = self).
    { intros self. unfold FixedLocator.setNTicks. rewrite Hv.
      destruct v; try reflexivity. contradiction. }
    assert (Hun : FixedLocator._nTicks (FixedLocator.__init__ locations v)
                  = FixedLocator.Unassigned).
    { unfold FixedLocator.__init__. rewrite E. apply fixed_setLocations_nTicks. }
    split.
    + unfold FixedLocator.locations. rewrite Hun. reflexivity.
    + intros kwargs w Hk. unfold FixedLocator.locations, FixedLocator.setValues.
      rewrite Hk.
      destruct (kwargs !! "locations"%string);
        rewrite ?fixed_setLocations_nTicks, Hun; reflexivity.
Qed.

Lemma X21_constructors_and_defaults_witness :
  SpacedLocator.__init__ (PyStr "2") (PyList [])
  = {| SpacedLocator._base := NFloat 1; SpacedLocator._anchor := None |} /\
  FixedLocator.locations
    (FixedLocator.__init__ (PyList [PyInt 1; PyInt 2; PyInt 3]) (PyFloat (5 # 2)))
    (NInt 0) (NInt 1) "major"
  = (FixedLocator.__init__ (PyList [PyInt 1; PyInt 2; PyInt 3]) (PyFloat (5 # 2)),
     Raise AttributeError).
Proof.
  split.
  - apply (proj1 (proj2 X21_constructors_and_defaults)); reflexivity.
  - apply (proj1 (proj2 (proj2 (proj2 (proj2 (proj2 X21_constructors_and_defaults))))
                    (PyList [PyInt 1; PyInt 2; PyInt 3]) (PyFloat (5 # 2))
                    (NInt 0) (NInt 1) "major"%string ltac:(discriminate) eq_refl)).
Defined.
